(** * omon: the stream monitor of the Tor control port

    A shallow embedding of [omon.go]: the setup sequence of [Start], the
    dispatch of [eventLoop], the handlers [handleStreamEvent] and
    [handleStreamBWEvent], [finalizeStream] and one tick of
    [periodicStats], together with the parts of Go's [strings], [strconv]
    and [encoding/hex] packages the handlers call.

    Conventions.
    - A Go [string] is a sequence of bytes: Rocq's [string].  The control
      port speaks ASCII, and [Fields] and [TrimSpace] below are the paths
      [strings.Fields] and [strings.TrimSpace] take on a string without a
      byte from 0x80 on, where white space is the six characters of
      [isSpace].  On other strings Go decodes UTF-8 and knows more white
      space; every statement that reads the tokens of a line therefore
      assumes [asciiOnly] of it.
    - [int64] and [int] are integers of 64 bits (the width of [int] on the
      64-bit targets): values of [Z] that every arithmetic operation brings
      back into range with [wrap64].
    - [map[string]int64] is a [gmap string Z]; reading a missing key gives
      0, as in Go.  [map[string]*StreamInfo] is a [gmap string StreamInfo]:
      the only alias of a record is the local [s] of a handler, so a write
      through [s] is a write into the map.
    - The mutex makes each handler body and each reporter tick atomic: the
      program is a sequence of such steps, each a function on the monitor
      that also returns the lines it printed.
    - [time.Now] is an input: every step receives the clock reading [now]
      (nanoseconds), used wherever the body reads the clock.  In the
      program the readings of one call differ by the time the call takes:
      the statements about all lines leave open the elapsed time of a
      stream opened and closed in one call and the stamps of the lines
      [finalizeStream] prints; the evaluations on sample lines show them
      for calls that take no time. *)

From Stdlib Require Import ZArith Lia Ascii String List Bool.
From stdpp Require Import base option gmap strings list fin_maps.

Local Open Scope string_scope.
Local Open Scope Z_scope.

(** ** Integers of 64 bits *)

Module Int64.

Definition modulus : Z := 2 ^ 64.
Definition MaxInt64 : Z := 2 ^ 63 - 1.
Definition MinInt64 : Z := - 2 ^ 63.
Definition MaxUint64 : Z := 2 ^ 64 - 1.

(** The value an [int64] holds after an operation whose exact result is
    [x]: two's complement wrap-around. *)
Definition wrap64 (x : Z) : Z := (x + 2 ^ 63) mod modulus - 2 ^ 63.

(** The value a [uint64] holds. *)
Definition wrapU64 (x : Z) : Z := x mod modulus.

Definition in_range (x : Z) : Prop := MinInt64 <= x <= MaxInt64.

Definition add (x y : Z) : Z := wrap64 (x + y).
Definition incr (x : Z) : Z := wrap64 (x + 1).
Definition decr (x : Z) : Z := wrap64 (x - 1).

End Int64.
Import Int64.

(** ** The [strings] package, on bytes *)

Module Strings.

(** A string without a byte from 0x80 on: the strings on which
    [strings.Fields] and [strings.TrimSpace] take their ASCII path. *)
Definition asciiOnly (s : string) : bool :=
  forallb (fun c => (nat_of_ascii c <? 128)%nat) (list_ascii_of_string s).

(** The table [asciiSpace] of the package, which is [unicode.IsSpace] on the
    ASCII range: tab, line feed, vertical tab, form feed, carriage return
    and space. *)
Definition isSpace (c : ascii) : bool :=
  let n := nat_of_ascii c in
  ((9 <=? n)%nat && (n <=? 13)%nat) || (n =? 32)%nat.

(** [strings.HasPrefix s prefix]. *)
Fixpoint HasPrefix (s prefix : string) {struct prefix} : bool :=
  match prefix, s with
  | EmptyString, _ => true
  | String p prefix', String c s' => Ascii.eqb c p && HasPrefix s' prefix'
  | String _ _, EmptyString => false
  end.

(** [strings.Contains s substr]: [substr] occurs at some offset of [s]. *)
Fixpoint Contains (s substr : string) : bool :=
  HasPrefix s substr ||
  match s with
  | EmptyString => false
  | String _ s' => Contains s' substr
  end.

(** [strings.TrimPrefix s prefix]. *)
Fixpoint dropBytes (n : nat) (s : string) : string :=
  match n, s with
  | O, _ => s
  | S n', String _ s' => dropBytes n' s'
  | S _, EmptyString => EmptyString
  end.

Definition TrimPrefix (s prefix : string) : string :=
  if HasPrefix s prefix then dropBytes (String.length prefix) s else s.

(** [strings.TrimSpace] on a string that is [asciiOnly]: white space
    removed at both ends. *)
Fixpoint trimLeft (s : string) : string :=
  match s with
  | String c s' => if isSpace c then trimLeft s' else s
  | EmptyString => EmptyString
  end.

Fixpoint trimRight (s : string) : string :=
  match s with
  | EmptyString => EmptyString
  | String c s' =>
      match trimRight s' with
      | EmptyString => if isSpace c then EmptyString else String c EmptyString
      | t => String c t
      end
  end.

Definition TrimSpace (s : string) : string := trimRight (trimLeft s).

(** [strings.Fields] on a string that is [asciiOnly]: the maximal runs of
    characters that are not white space, in order.  [tok] is the run being
    read. *)
Fixpoint fieldsFrom (tok : string) (s : string) : list string :=
  match s with
  | EmptyString => if String.eqb tok "" then [] else [tok]
  | String c s' =>
      if isSpace c
      then (if String.eqb tok "" then fieldsFrom "" s'
            else tok :: fieldsFrom "" s')
      else fieldsFrom (tok ++ String c "") s'
  end.

Definition Fields (s : string) : list string := fieldsFrom "" s.

End Strings.
Import Strings.

(** ** [strconv.ParseInt] at base 10 and bit size 64 *)

Module Strconv.

(** The [Err] field of a [*NumError]. *)
Inductive NumError := ErrSyntax | ErrRange.

Definition lower (c : Z) : Z := Z.lor c 32.

(** The digit a byte stands for in [ParseUint]'s switch: decimal digits,
    then letters from 10 on; [None] is the switch's [default]. *)
Definition digitOf (c : ascii) : option Z :=
  let n := Z.of_nat (nat_of_ascii c) in
  if (48 <=? n) && (n <=? 57) then Some (n - 48)
  else if (97 <=? lower n) && (lower n <=? 122) then Some (lower n - 97 + 10)
  else None.

(** The smallest number such that [cutoff * 10 > MaxUint64]. *)
Definition cutoff10 : Z := MaxUint64 / 10 + 1.

(** The loop of [ParseUint] over the bytes of [s], [n] being the number
    read so far.  It returns at the first byte it rejects: a range error
    is reported before the bytes after it are looked at. *)
Fixpoint parseUintLoop (s : string) (n : Z) : Z * option NumError :=
  match s with
  | EmptyString => (n, None)
  | String c s' =>
      match digitOf c with
      | None => (0, Some ErrSyntax)
      | Some d =>
          if 10 <=? d then (0, Some ErrSyntax)
          else if cutoff10 <=? n then (MaxUint64, Some ErrRange)
          else
            let n := wrapU64 (n * 10) in
            let n1 := wrapU64 (n + d) in
            if (n1 <? n) || (MaxUint64 <? n1) then (MaxUint64, Some ErrRange)
            else parseUintLoop s' n1
      end
  end.

Definition ParseUint (s : string) : Z * option NumError :=
  match s with
  | EmptyString => (0, Some ErrSyntax)
  | _ => parseUintLoop s 0
  end.

Definition ParseInt (s : string) : Z * option NumError :=
  match s with
  | EmptyString => (0, Some ErrSyntax)
  | String c0 rest =>
      let neg := Ascii.eqb c0 "-" in
      let s1 := if Ascii.eqb c0 "+" || neg then rest else s in
      let '(un, err) := ParseUint s1 in
      match err with
      | Some ErrSyntax => (0, Some ErrSyntax)
      | _ =>
          let cutoff := 2 ^ 63 in
          if negb neg && (cutoff <=? un) then (cutoff - 1, Some ErrRange)
          else if neg && (cutoff <? un) then (- cutoff, Some ErrRange)
          else
            let n := wrap64 un in
            (if neg then wrap64 (- n) else n, None)
      end
  end.

End Strconv.
Import Strconv.

(** ** [encoding/hex] *)

Module Hex.

Definition hextable : string := "0123456789abcdef".

Definition hexDigit (n : nat) : ascii :=
  match String.get n hextable with
  | Some c => c
  | None => "0"%char
  end.

(** [hex.EncodeToString]: two digits for each byte, high nibble first. *)
Fixpoint EncodeToString (src : string) : string :=
  match src with
  | EmptyString => EmptyString
  | String v src' =>
      let n := nat_of_ascii v in
      String (hexDigit (Nat.shiftr n 4))
        (String (hexDigit (Nat.land n 15)) (EncodeToString src'))
  end.

End Hex.

(** ** [time]: clock readings and durations, in nanoseconds *)

Module Clock.

Definition Millisecond : Z := 1000000.

(** [Time.Sub], which [time.Since] calls: the difference, kept within the
    range of a [Duration]. *)
Definition Since (now start : Z) : Z :=
  Z.max MinInt64 (Z.min MaxInt64 (now - start)).

Definition lessThanHalf (x y : Z) : bool :=
  wrapU64 (wrapU64 x + wrapU64 x) <? wrapU64 y.

(** [Duration.Round]: to the nearest multiple of [m], halfway values away
    from zero. *)
Definition Round (d m : Z) : Z :=
  if m <=? 0 then d
  else
    let r := Z.rem d m in
    if d <? 0 then
      let r := - r in
      if lessThanHalf r m then wrap64 (d + r)
      else
        let d1 := wrap64 (d - m + r) in
        if d1 <? d then d1 else MinInt64
    else if lessThanHalf r m then wrap64 (d - r)
    else
      let d1 := wrap64 (d + m - r) in
      if d <? d1 then d1 else MaxInt64.

End Clock.
Import Clock.

(** ** The monitor's data *)

(** [StreamInfo]: metadata and traffic of one stream. *)
Record StreamInfo := mkStreamInfo {
  ID : string;
  Target : string;
  BytesSent : Z;
  BytesReceived : Z;
  StartTime : Z;
  EndTime : Z;
  Closed : bool
}.

(** [TorMonitor], without the connection, the reader, the logger and the
    mutex: the lines read are the input of a step, the lines logged its
    output. *)
Record TorMonitor := mkTorMonitor {
  streams : gmap string StreamInfo;
  stats : gmap string Z;
  report : gmap string Z;
  activeStreams : Z;
  totalStreams : Z
}.

Definition NewTorMonitor : TorMonitor :=
  {| streams := ∅; stats := ∅; report := ∅;
     activeStreams := 0; totalStreams := 0 |}.

(** [m[k]] on a [map[string]int64]: the zero value for a missing key. *)
Definition mapGet (m : gmap string Z) (k : string) : Z := default 0 (m !! k).

(** [m[k]++] and [m[k] += v]. *)
Definition mapIncr (m : gmap string Z) (k : string) : gmap string Z :=
  <[k := incr (mapGet m k)]> m.

Definition mapAdd (m : gmap string Z) (k : string) (v : Z) : gmap string Z :=
  <[k := add (mapGet m k) v]> m.

Definition setTarget (s : StreamInfo) (t : string) : StreamInfo :=
  {| ID := ID s; Target := t; BytesSent := BytesSent s;
     BytesReceived := BytesReceived s; StartTime := StartTime s;
     EndTime := EndTime s; Closed := Closed s |}.

Definition setClosed (s : StreamInfo) (now : Z) : StreamInfo :=
  {| ID := ID s; Target := Target s; BytesSent := BytesSent s;
     BytesReceived := BytesReceived s; StartTime := StartTime s;
     EndTime := now; Closed := true |}.

Definition addBytes (s : StreamInfo) (sent rcvd : Z) : StreamInfo :=
  {| ID := ID s; Target := Target s; BytesSent := add (BytesSent s) sent;
     BytesReceived := add (BytesReceived s) rcvd; StartTime := StartTime s;
     EndTime := EndTime s; Closed := Closed s |}.

Definition setStreams (m : TorMonitor) (st : gmap string StreamInfo) : TorMonitor :=
  {| streams := st; stats := stats m; report := report m;
     activeStreams := activeStreams m; totalStreams := totalStreams m |}.

(** ** What the monitor prints *)

Inductive Color :=
  ColorReset | ColorRed | ColorGreen | ColorYellow | ColorCyan | ColorGray | ColorBlue.

(** The formatted lines, by their format and arguments.  The megabyte
    figures of the report are the quotients of its two byte counts by
    1048576.0 and carry nothing more. *)
Inductive Message :=
| MsgStatus (id status target : string)
| MsgFinished (id : string) (sent rcvd duration : Z) (target displayReason : string)
| MsgTotalNow (sent rcvd allStreams active : Z)
| MsgReport (sent rcvd streamsTotal active : Z).

(** A line on the console, with the clock reading when it is stamped and
    its colour, or a line handed to the logger. *)
Inductive Output :=
| Console (stamp : option Z) (color : Color) (msg : Message)
| Logged (msg : Message).

Definition isFinishedMsg (msg : Message) : bool :=
  match msg with MsgFinished _ _ _ _ _ _ => true | _ => false end.

(** The "FINISHED" summaries written to the traffic log. *)
Definition loggedFinished (o : Output) : bool :=
  match o with Logged msg => isFinishedMsg msg | Console _ _ _ => false end.

(** The "FINISHED" summaries printed on the console. *)
Definition printedFinished (o : Output) : bool :=
  match o with Console _ _ msg => isFinishedMsg msg | Logged _ => false end.

(** ** The handlers *)

Section Handlers.

(** The clock reading of the step. *)
Variable now : Z.

(** [finalizeStream]: the summary of the stream and the running totals,
    on the console and in the log. *)
Definition finalizeStream (m : TorMonitor) (s : StreamInfo) (reason : string)
  : list Output :=
  let duration := Round (Since now (StartTime s)) Millisecond in
  let displayReason := if String.eqb reason "DONE" then "END" else reason in
  let summary :=
    MsgFinished (ID s) (BytesSent s) (BytesReceived s) duration (Target s)
      displayReason in
  let accMsg :=
    MsgTotalNow (mapGet (stats m) "total_sent") (mapGet (stats m) "total_received")
      (totalStreams m) (activeStreams m) in
  [Console (Some now) ColorYellow summary; Console (Some now) ColorCyan accMsg;
   Logged summary; Logged accMsg].

(** The loop over [parts[4:]]: every token without '=' that is not "-"
    overwrites the target. *)
Definition scanTarget (fields : list string) (target : string) : string :=
  fold_left
    (fun t p => if negb (Contains p "=") && negb (String.eqb p "-") then p else t)
    fields target.

(** The loop over all of [parts]: every token with the prefix "REASON="
    overwrites the reason. *)
Definition scanReason (parts : list string) : string :=
  fold_left
    (fun r p => if HasPrefix p "REASON=" then TrimPrefix p "REASON=" else r)
    parts "NONE".

Definition statusColor (status : string) : Color :=
  if String.eqb status "SUCCEEDED" then ColorGreen
  else if String.eqb status "FAILED" then ColorRed
  else if String.eqb status "NEW" then ColorCyan
  else if String.eqb status "SENTCONNECT" then ColorBlue
  else ColorGray.

Definition isTerminal (status : string) : bool :=
  String.eqb status "CLOSED" || String.eqb status "FAILED".

Definition newStream (id : string) : StreamInfo :=
  {| ID := id; Target := ""; BytesSent := 0; BytesReceived := 0;
     StartTime := now; EndTime := 0; Closed := false |}.

(** The first block of [handleStreamEvent]: an id that is not in the map
    gets a record and is counted. *)
Definition openStream (id : string) (m : TorMonitor) : TorMonitor :=
  {| streams := <[id := newStream id]> (streams m);
     stats := mapIncr (stats m) "streams_total";
     report := mapIncr (report m) "streams_total";
     activeStreams := incr (activeStreams m);
     totalStreams := incr (totalStreams m) |}.

(** The last block: the record is marked, the stream no longer counted
    as active, the summary written and the record deleted. *)
Definition closeStream (id : string) (s : StreamInfo) (parts : list string)
    (m : TorMonitor) : TorMonitor * list Output :=
  let s := setClosed s now in
  let m :=
    {| streams := <[id := s]> (streams m); stats := stats m; report := report m;
       activeStreams := decr (activeStreams m);
       totalStreams := totalStreams m |} in
  let reason := scanReason parts in
  let out := finalizeStream m s reason in
  (setStreams m (delete id (streams m)), out).

(** [handleStreamEvent]. *)
Definition handleStreamEvent (line : string) (m : TorMonitor)
  : TorMonitor * list Output :=
  let parts := Fields line in
  if (length parts <? 4)%nat then (m, [])
  else
    let id := nth 2 parts "" in
    let status := nth 3 parts "" in
    let m :=
      match streams m !! id with
      | Some _ => m
      | None => openStream id m
      end in
    let s := default (newStream id) (streams m !! id) in
    let s := setTarget s (scanTarget (drop 4 parts) (Target s)) in
    let m := setStreams m (<[id := s]> (streams m)) in
    let out :=
      [Console (Some now) (statusColor status) (MsgStatus id status (Target s));
       Logged (MsgStatus id status (Target s))] in
    if isTerminal status && negb (Closed s)
    then let '(m, fin) := closeStream id s parts m in (m, (out ++ fin)%list)
    else (m, out).

(** [handleStreamBWEvent]; it prints nothing. *)
Definition handleStreamBWEvent (line : string) (m : TorMonitor) : TorMonitor :=
  let parts := Fields line in
  if (length parts <? 5)%nat then m
  else
    let id := nth 2 parts "" in
    let sent := fst (ParseInt (nth 3 parts "")) in
    let rcvd := fst (ParseInt (nth 4 parts "")) in
    match streams m !! id with
    | Some s =>
        {| streams := <[id := addBytes s sent rcvd]> (streams m);
           stats := mapAdd (mapAdd (stats m) "total_sent" sent) "total_received" rcvd;
           report := mapAdd (mapAdd (report m) "total_sent" sent) "total_received" rcvd;
           activeStreams := activeStreams m;
           totalStreams := totalStreams m |}
    | None => m
    end.

(** One tick of [periodicStats]: the report of the window, then the three
    counters of the window set to zero. *)
Definition periodicStats (m : TorMonitor) : TorMonitor * list Output :=
  let rep :=
    MsgReport (mapGet (report m) "total_sent") (mapGet (report m) "total_received")
      (mapGet (report m) "streams_total") (activeStreams m) in
  ({| streams := streams m; stats := stats m;
      report :=
        <["streams_total" := 0]>
          (<["total_received" := 0]> (<["total_sent" := 0]> (report m)));
      activeStreams := activeStreams m; totalStreams := totalStreams m |},
   [Console None ColorGreen rep; Logged rep]).

(** ** The event loop *)

(** Where the [if] chain of [eventLoop] sends a trimmed line. *)
Inductive Route := ToStreamEvent | ToStreamBWEvent | Dropped.

Definition route (line : string) : Route :=
  if HasPrefix line "650 STREAM " && negb (Contains line "STREAM_BW")
  then ToStreamEvent
  else if HasPrefix line "650 STREAM_BW" then ToStreamBWEvent
  else Dropped.

Definition dispatch (line : string) (m : TorMonitor) : TorMonitor * list Output :=
  match route line with
  | ToStreamEvent => handleStreamEvent line m
  | ToStreamBWEvent => (handleStreamBWEvent line m, [])
  | Dropped => (m, [])
  end.

(** One turn of [eventLoop] on a line read without error. *)
Definition eventLoopTurn (raw : string) (m : TorMonitor) : TorMonitor * list Output :=
  dispatch (TrimSpace raw) m.

End Handlers.

(** ** Runs of the two tasks *)

(** The steps the two goroutines take under the mutex, in the order they
    take it: a line arriving on the connection, or a tick of the reporter. *)
Inductive Step :=
| Received (now : Z) (raw : string)
| Tick (now : Z).

Definition step (e : Step) (m : TorMonitor) : TorMonitor * list Output :=
  match e with
  | Received now raw => eventLoopTurn now raw m
  | Tick now => periodicStats m
  end.

Fixpoint run (es : list Step) (m : TorMonitor) : TorMonitor * list Output :=
  match es with
  | [] => (m, [])
  | e :: es' =>
      let '(m1, o1) := step e m in
      let '(m2, o2) := run es' m1 in
      (m2, (o1 ++ o2)%list)
  end.

(** A sequence of bandwidth lines, already trimmed, handled in order. *)
Definition handleStreamBWEvents (lines : list string) (m : TorMonitor) : TorMonitor :=
  fold_left (fun m l => handleStreamBWEvent l m) lines m.

(** ** The setup sequence *)

Module Setup.

(** A value or a Go [error], by its text. *)
Inductive result (A : Type) :=
| Ok (a : A)
| Failed (err : string).
Arguments Ok {A} a.
Arguments Failed {A} err.

(** What [Start] finds outside the program: the outcome of
    [connectToTor] (the address), of [findCookieFile] (the path), of
    [os.ReadFile] on that path (the cookie), and what each successive
    [ReadString] on the connection returns. *)
Record World := mkWorld {
  connectToTor : result string;
  findCookieFile : result string;
  ReadFile : result string;
  replies : list (result string)
}.

(** [m.reader.ReadString]: the next reply; a connection with nothing
    more to deliver ends with an error. *)
Definition ReadString (rs : list (result string))
  : result string * list (result string) :=
  match rs with
  | [] => (Failed "EOF", [])
  | r :: rs' => (r, rs')
  end.

(** The errors [Start] returns, by their [fmt.Errorf] format. *)
Inductive StartError :=
| ConnectFailed (err : string)
| AuthenticationError (err : string)
| ReadCookieFailed (err : string)
| ReadAuthResponseFailed (err : string)
| AuthenticationFailed (response : string).

(** What a call of [Start] leaves: the error it returns ([None] is
    [nil]), the commands written to the connection, whether the two
    goroutines were started, and the replies not yet read. *)
Record Started := mkStarted {
  err : option StartError;
  written : list string;
  running : bool;
  unread : list (result string)
}.

Definition CRLF : string := String (ascii_of_nat 13) (String (ascii_of_nat 10) "").

Definition Start (w : World) : Started :=
  match connectToTor w with
  | Failed e => mkStarted (Some (ConnectFailed e)) [] false (replies w)
  | Ok address =>
      match findCookieFile w with
      | Failed e => mkStarted (Some (AuthenticationError e)) [] false (replies w)
      | Ok path =>
          match ReadFile w with
          | Failed e => mkStarted (Some (ReadCookieFailed e)) [] false (replies w)
          | Ok data =>
              let authCmd :=
                ("AUTHENTICATE " ++ Hex.EncodeToString data ++ CRLF)%string in
              let '(response, rs) := ReadString (replies w) in
              match response with
              | Failed e =>
                  mkStarted (Some (ReadAuthResponseFailed e)) [authCmd] false rs
              | Ok response =>
                  if negb (Contains response "250 OK")
                  then mkStarted (Some (AuthenticationFailed (TrimSpace response)))
                         [authCmd] false rs
                  else
                    let setEvents := ("SETEVENTS STREAM STREAM_BW" ++ CRLF)%string in
                    let '(_, rs) := ReadString rs in
                    mkStarted None [authCmd; setEvents] true rs
              end
          end
      end
  end.

End Setup.

(** ** Predicates the statements use *)

(** The integer fields hold values of their type. *)
Definition wfStream (s : StreamInfo) : Prop :=
  in_range (BytesSent s) ∧ in_range (BytesReceived s).

Definition wfCounters (c : gmap string Z) : Prop :=
  map_Forall (λ _ v, in_range v) c.

Definition wfMonitor (m : TorMonitor) : Prop :=
  map_Forall (λ _ s, wfStream s) (streams m) ∧
  wfCounters (stats m) ∧ wfCounters (report m) ∧
  in_range (activeStreams m) ∧ in_range (totalStreams m).

(** [len(m.streams)], an [int]. *)
Definition lenStreams (m : TorMonitor) : Z := wrap64 (Z.of_nat (size (streams m))).

(** The lines of a list, and the lines a run reads, are ASCII. *)
Definition allAscii (lines : list string) : Prop :=
  Forall (fun l => asciiOnly l = true) lines.

Definition asciiStep (e : Step) : Prop :=
  match e with
  | Received _ raw => asciiOnly raw = true
  | Tick _ => True
  end.

(** The count of active streams is the length of the map. *)
Definition countsRegistry (m : TorMonitor) : Prop :=
  activeStreams m = lenStreams m.

(** A token the target loop takes: no '=' in it, and not the placeholder. *)
Definition isCandidate (p : string) : bool :=
  negb (Contains p "=") && negb (String.eqb p "-").

(** The target candidate of a status line as the specification words it:
    the last token from the fifth on that is a candidate, if there is one. *)
Definition targetCandidate (parts : list string) : option string :=
  last (filter (fun p => isCandidate p = true) (drop 4 parts)).

(** Number of outputs that satisfy [f]. *)
Definition countOutputs (f : Output → bool) (out : list Output) : nat :=
  length (filter (fun o => f o = true) out).

(** The bytes one bandwidth line carries for a stream id: the two parsed
    amounts if the line has five tokens and names the id, nothing
    otherwise. *)
Definition sampleFor (id : string) (line : string) : Z * Z :=
  let parts := Fields line in
  if (length parts <? 5)%nat then (0, 0)
  else if String.eqb (nth 2 parts "") id
       then (fst (ParseInt (nth 3 parts "")), fst (ParseInt (nth 4 parts "")))
       else (0, 0).

Definition sumSent (id : string) (lines : list string) : Z :=
  fold_right (fun l acc => fst (sampleFor id l) + acc) 0 lines.

Definition sumReceived (id : string) (lines : list string) : Z :=
  fold_right (fun l acc => snd (sampleFor id l) + acc) 0 lines.

Definition nonNegativeFor (id : string) (lines : list string) : Prop :=
  Forall (fun l => 0 <= fst (sampleFor id l) ∧ 0 <= snd (sampleFor id l)) lines.

Definition bytesSentOf (id : string) (m : TorMonitor) : option Z :=
  BytesSent <$> streams m !! id.

Definition bytesReceivedOf (id : string) (m : TorMonitor) : option Z :=
  BytesReceived <$> streams m !! id.

(** ** Sample lines and monitors *)

Definition lineNew7 : string := "650 STREAM 7 NEW 0 www.example.com:443".
Definition lineBW7 : string := "650 STREAM_BW 7 100 250".
Definition lineClosed7 : string := "650 STREAM 7 CLOSED REASON=DONE".

(** The monitor after [lineNew7] arrived at clock reading 1: stream "7" is
    open, no byte counted yet. *)
Definition monitorOpen7 : TorMonitor := (eventLoopTurn 1 lineNew7 NewTorMonitor).1.

(** ** The whole of [eventLoop] *)

(** [eventLoop] over what the successive [ReadString] calls return, each
    with the clock reading of its turn.  The loop returns at the first read
    error, which it prints; the third component is that error, [None] while
    the loop is still waiting for a line. *)
Fixpoint eventLoop (reads : list (Z * Setup.result string)) (m : TorMonitor)
  : TorMonitor * list Output * option string :=
  match reads with
  | [] => (m, [], None)
  | (_, Setup.Failed e) :: _ => (m, [], Some e)
  | (now, Setup.Ok line) :: reads' =>
      let '(m1, o1) := eventLoopTurn now line m in
      let '(m2, o2, stop) := eventLoop reads' m1 in
      (m2, (o1 ++ o2)%list, stop)
  end.

(** ** Configuration, connection and cookie *)

Module Config.
Import Setup.

(** [OmonConfig], the content of omon.json. *)
Record OmonConfig := mkOmonConfig {
  CookiePaths : list string;
  Ports : list string
}.

(** The loop of [loadConfig] over the ports: all but "9151", in order. *)
Definition filterPorts (ports : list string) : list string :=
  List.filter (fun p => negb (String.eqb p "9151")) ports.

(** [loadConfig].  [notExist] is whether [os.Stat] reports that omon.json
    does not exist, [data] what [os.ReadFile] returns for it, and
    [Unmarshal] the outcome of [json.Unmarshal] into an [OmonConfig]. *)
Definition loadConfig (Unmarshal : string → result OmonConfig)
    (notExist : bool) (data : result string) : result OmonConfig :=
  if notExist then Failed "config file 'omon.json' not found"
  else
    match data with
    | Failed e => Failed ("failed to read config: " ++ e)
    | Ok configData =>
        match Unmarshal configData with
        | Failed e => Failed ("failed to parse config: " ++ e)
        | Ok config =>
            match CookiePaths config with
            | [] => Failed "'cookie_paths' array is empty or missing in config"
            | _ =>
                let filteredPorts := filterPorts (Ports config) in
                let filteredPorts :=
                  match filteredPorts with
                  | [] => ["9051"]
                  | _ => filteredPorts
                  end in
                Ok {| CookiePaths := CookiePaths config; Ports := filteredPorts |}
            end
        end
    end.

(** The loop of [connectToTor] over the ports.  [dial n address] is
    whether the [n]-th call of [net.DialTimeout] of this run, made to
    [address], succeeds; a connection is named by its address. *)
Fixpoint tryPorts (dial : nat → string → bool) (n : nat) (ports : list string)
  : option string :=
  match ports with
  | [] => None
  | port :: ports' =>
      let address := ("127.0.0.1:" ++ port)%string in
      if dial n address then Some address
      else
        let address := ("localhost:" ++ port)%string in
        if dial (S n) address then Some address
        else tryPorts dial (S (S n)) ports'
  end.

(** A [[]string] under the verb [%v]. *)
Definition showPorts (ports : list string) : string :=
  ("[" ++ String.concat " " ports ++ "]")%string.

(** [connectToTor], on the outcome of its call of [loadConfig]. *)
Definition connectToTor (config : result OmonConfig) (dial : nat → string → bool)
  : result string :=
  match config with
  | Failed e => Failed ("config error: " ++ e)
  | Ok config =>
      match tryPorts dial 0 (Ports config) with
      | Some address => Ok address
      | None =>
          Failed ("could not connect to Tor on any configured port: "
                  ++ showPorts (Ports config))
      end
  end.

(** The addresses [connectToTor] may dial, in the order it dials them. *)
Definition candidates (ports : list string) : list string :=
  flat_map (fun port => [("127.0.0.1:" ++ port)%string; ("localhost:" ++ port)%string])
    ports.

Section CookieFile.

(** The file system as [findCookieFile] sees it: [os.ExpandEnv], whether
    [os.Stat] finds a path, [filepath.IsAbs] and [filepath.Abs]. *)
Variable ExpandEnv : string → string.
Variable Stat : string → bool.
Variable IsAbs : string → bool.
Variable Abs : string → result string.

(** The body of the loop of [findCookieFile] for one configured path: the
    path it returns, if it returns. *)
Definition lookAt (path : string) : option string :=
  let expandedPath := ExpandEnv path in
  if Stat expandedPath then Some expandedPath
  else if negb (IsAbs expandedPath) then
    match Abs expandedPath with
    | Ok absPath => if Stat absPath then Some absPath else None
    | Failed _ => None
    end
  else None.

Fixpoint searchPaths (paths : list string) : option string :=
  match paths with
  | [] => None
  | path :: paths' =>
      match lookAt path with
      | Some found => Some found
      | None => searchPaths paths'
      end
  end.

(** [findCookieFile], on the outcome of its call of [loadConfig]. *)
Definition findCookieFile (config : result OmonConfig) : result string :=
  match config with
  | Failed e => Failed ("config error: " ++ e)
  | Ok config =>
      match searchPaths (CookiePaths config) with
      | Some found => Ok found
      | None =>
          Failed "cookie file not found in any configured path. Check your omon.json file"
      end
  end.

End CookieFile.

End Config.

(** ** Predicates of the further properties *)

(** A token of [strings.Fields]: not empty, and without white space. *)
Definition noSpace (s : string) : Prop :=
  Forall (fun c => isSpace c = false) (list_ascii_of_string s).

Definition isToken (s : string) : Prop := s ≠ "" ∧ noSpace s.

(** The records of the registry are those of streams still open: filed
    under their own id, which is a token of a status line, not closed, and
    with no end time yet. *)
Definition openRecord (id : string) (s : StreamInfo) : Prop :=
  ID s = id ∧ isToken id ∧ Closed s = false ∧ EndTime s = 0.

Definition registryOpen (m : TorMonitor) : Prop :=
  map_Forall openRecord (streams m).

(** The two lifetime counts of streams. *)
Definition lifetimeCountsAgree (m : TorMonitor) : Prop :=
  totalStreams m = mapGet (stats m) "streams_total".

(** The keys the code ever writes in [stats] and [report]. *)
Definition counterKeys : gset string :=
  {[ "streams_total"; "total_sent"; "total_received" ]}.

(** The exact sum of a field over the records of a registry. *)
Definition sumOver (f : StreamInfo → Z) (st : gmap string StreamInfo) : Z :=
  map_fold (fun _ s acc => f s + acc) 0 st.

(** The bytes of the streams still open. *)
Definition openSent (m : TorMonitor) : Z := sumOver BytesSent (streams m).

Definition openReceived (m : TorMonitor) : Z := sumOver BytesReceived (streams m).

(** The bytes of the "FINISHED" summaries written to the log. *)
Definition finishedSent (out : list Output) : Z :=
  fold_right
    (fun o acc =>
       match o with
       | Logged (MsgFinished _ sent _ _ _ _) => sent + acc
       | _ => acc
       end) 0 out.

Definition finishedReceived (out : list Output) : Z :=
  fold_right
    (fun o acc =>
       match o with
       | Logged (MsgFinished _ _ rcvd _ _ _) => rcvd + acc
       | _ => acc
       end) 0 out.

(** Equal as [int64]: the same up to a multiple of 2^64. *)
Definition eq64 (x y : Z) : Prop := wrap64 x = wrap64 y.

(** The lifetime totals of a monitor account for the bytes of its open
    streams and of the summaries [out] logged so far. *)
Definition conserved (r : TorMonitor * list Output) : Prop :=
  eq64 (mapGet (stats r.1) "total_sent") (openSent r.1 + finishedSent r.2) ∧
  eq64 (mapGet (stats r.1) "total_received") (openReceived r.1 + finishedReceived r.2).


Definition isTick (e : Step) : bool :=
  match e with Tick _ => true | Received _ _ => false end.

(** How much a lifetime counter is ahead of its window counter. *)
Definition aheadOfWindow (k : string) (m : TorMonitor) : Z :=
  wrap64 (mapGet (stats m) k - mapGet (report m) k).

(** The tokens with the prefix "REASON=", as the specification words the
    reason: the value of the last one, "NONE" without any. *)
Definition reasonOf (parts : list string) : string :=
  match last (filter (fun p => HasPrefix p "REASON=" = true) parts) with
  | Some p => TrimPrefix p "REASON="
  | None => "NONE"
  end.

(** The digits of [hextable]. *)
Definition isHexDigit (c : ascii) : bool :=
  let n := nat_of_ascii c in
  ((48 <=? n) && (n <=? 57) || (97 <=? n) && (n <=? 102))%nat.

(** The value of a digit of [hextable], and the byte two digits stand for. *)
Definition hexValue (c : ascii) : nat :=
  let n := nat_of_ascii c in
  if (n <=? 57)%nat then (n - 48)%nat else (n - 87)%nat.

Definition byteOfHex (hi lo : ascii) : ascii :=
  ascii_of_nat (16 * hexValue hi + hexValue lo).

(** A decimal digit, and the number a string of decimal digits writes,
    [n] being the number written by the digits before it. *)
Definition isDecimal (c : ascii) : bool :=
  let n := nat_of_ascii c in ((48 <=? n) && (n <=? 57))%nat.

Fixpoint decimalFrom (n : Z) (s : string) : Z :=
  match s with
  | EmptyString => n
  | String c s' => decimalFrom (n * 10 + (Z.of_nat (nat_of_ascii c) - 48)) s'
  end.

Definition allDecimal (s : string) : Prop :=
  Forall (fun c => isDecimal c = true) (list_ascii_of_string s).

(** The decimal digits a string starts with, and what follows them. *)
Fixpoint leadingDigits (s : string) : string :=
  match s with
  | EmptyString => EmptyString
  | String c s' => if isDecimal c then String c (leadingDigits s') else EmptyString
  end.

Fixpoint afterDigits (s : string) : string :=
  match s with
  | EmptyString => EmptyString
  | String c s' => if isDecimal c then afterDigits s' else s
  end.

Definition isEmpty (s : string) : bool :=
  match s with EmptyString => true | String _ _ => false end.

(** A token without the sign [ParseInt] accepts in front of it. *)
Definition unsigned (tok : string) : string :=
  match tok with
  | EmptyString => EmptyString
  | String c rest => if Ascii.eqb c "+" || Ascii.eqb c "-" then rest else tok
  end.

(** The tokens out of the range of [int64], read off their bytes: after
    the sign, either the leading decimal digits write a number above
    [MaxUint64], whatever follows them, or the token is decimal digits to
    its end and they write a number above [MaxInt64] (above [2 ^ 63]
    behind a minus sign). *)
Definition outOfRange (tok : string) : bool :=
  let body := unsigned tok in
  let v := decimalFrom 0 (leadingDigits body) in
  (MaxUint64 <? v) ||
  isEmpty (afterDigits body) &&
    (if HasPrefix tok "-" then 2 ^ 63 <? v else MaxInt64 <? v).

(** The bound of [int64] on the side of a token's sign. *)
Definition boundFor (tok : string) : Z :=
  if HasPrefix tok "-" then MinInt64 else MaxInt64.

(** What [Start] finds when the configuration file, the dialling and the
    file system are as given: its calls of [connectToTor] and of
    [findCookieFile] each load the configuration. *)
Definition worldOf (Unmarshal : string → Setup.result Config.OmonConfig)
    (notExist : bool) (data : Setup.result string) (dial : nat → string → bool)
    (ExpandEnv : string → string) (Stat IsAbs : string → bool)
    (Abs : string → Setup.result string)
    (cookie : string → Setup.result string)
    (replies : list (Setup.result string)) : Setup.World :=
  let config := Config.loadConfig Unmarshal notExist data in
  let found := Config.findCookieFile ExpandEnv Stat IsAbs Abs config in
  {| Setup.connectToTor := Config.connectToTor config dial;
     Setup.findCookieFile := found;
     Setup.ReadFile :=
       match found with
       | Setup.Ok path => cookie path
       | Setup.Failed e => Setup.Failed e
       end;
     Setup.replies := replies |}.

(** * Properties *)

(** ** The library functions on sample inputs *)

Example ParseInt_250 : ParseInt "250" = (250, None).
Proof. vm_compute. reflexivity. Qed.

Example ParseInt_abc : ParseInt "abc" = (0, Some ErrSyntax).
Proof. vm_compute. reflexivity. Qed.

Example ParseInt_empty : ParseInt "" = (0, Some ErrSyntax).
Proof. reflexivity. Qed.

Example ParseInt_sign_alone : ParseInt "-" = (0, Some ErrSyntax).
Proof. reflexivity. Qed.

Example ParseInt_negative : ParseInt "-5" = (-5, None).
Proof. vm_compute. reflexivity. Qed.

Example ParseInt_plus : ParseInt "+5" = (5, None).
Proof. vm_compute. reflexivity. Qed.

Example ParseInt_min : ParseInt "-9223372036854775808" = (MinInt64, None).
Proof. vm_compute. reflexivity. Qed.

Example ParseInt_above_max : ParseInt "9223372036854775808" = (MaxInt64, Some ErrRange).
Proof. vm_compute. reflexivity. Qed.

Example ParseInt_below_min : ParseInt "-9223372036854775809" = (MinInt64, Some ErrRange).
Proof. vm_compute. reflexivity. Qed.

Example ParseInt_letter_first : ParseInt "x99999999999999999999" = (0, Some ErrSyntax).
Proof. vm_compute. reflexivity. Qed.

Example Fields_status_line :
  Fields "650 STREAM 7 NEW 0  www.example.com:443 " =
  ["650"; "STREAM"; "7"; "NEW"; "0"; "www.example.com:443"].
Proof. vm_compute. reflexivity. Qed.

Example TrimSpace_line :
  TrimSpace (" 650 STREAM 7 CLOSED" ++ Setup.CRLF) = "650 STREAM 7 CLOSED".
Proof. vm_compute. reflexivity. Qed.

Example Contains_ok : Contains "250 OK" "250 OK" = true ∧ Contains "515 Bad" "250 OK" = false.
Proof. split; vm_compute; reflexivity. Qed.

Example TrimPrefix_reason : TrimPrefix "REASON=DONE" "REASON=" = "DONE".
Proof. vm_compute. reflexivity. Qed.

Example EncodeToString_bytes : Hex.EncodeToString "Az" = "417a".
Proof. vm_compute. reflexivity. Qed.

Example Round_half_up : Round 2500000 Millisecond = 3000000 ∧ Round 2499999 Millisecond = 2000000.
Proof. split; vm_compute; reflexivity. Qed.

(** Scenarios 1 to 3 of the specification in a row: the stream is opened,
    carries one sample and is closed. *)
Example scenario_open_sample_close :
  run [Received 1 lineNew7; Received 2 lineBW7; Received 2000003 lineClosed7] NewTorMonitor =
  ({| streams := ∅;
      stats := {[ "streams_total" := 1; "total_sent" := 100; "total_received" := 250 ]};
      report := {[ "streams_total" := 1; "total_sent" := 100; "total_received" := 250 ]};
      activeStreams := 0; totalStreams := 1 |},
   [Console (Some 1) ColorCyan (MsgStatus "7" "NEW" "www.example.com:443");
    Logged (MsgStatus "7" "NEW" "www.example.com:443");
    Console (Some 2000003) ColorGray (MsgStatus "7" "CLOSED" "www.example.com:443");
    Logged (MsgStatus "7" "CLOSED" "www.example.com:443");
    Console (Some 2000003) ColorYellow
      (MsgFinished "7" 100 250 2000000 "www.example.com:443" "END");
    Console (Some 2000003) ColorCyan (MsgTotalNow 100 250 1 0);
    Logged (MsgFinished "7" 100 250 2000000 "www.example.com:443" "END");
    Logged (MsgTotalNow 100 250 1 0)]).
Proof. vm_compute. reflexivity. Qed.

(** ** Arithmetic of 64 bits *)

Lemma wrap64_in_range (x : Z) : in_range (wrap64 x).
Proof.
  unfold in_range, wrap64, MinInt64, MaxInt64, modulus.
  pose proof (Z.mod_pos_bound (x + 2 ^ 63) (2 ^ 64) ltac:(lia)). lia.
Qed.

Lemma wrap64_id (x : Z) : in_range x → wrap64 x = x.
Proof.
  unfold in_range, wrap64, MinInt64, MaxInt64, modulus. intros H.
  rewrite Z.mod_small by lia. lia.
Qed.

Lemma wrap64_add_l (x y : Z) : wrap64 (wrap64 x + y) = wrap64 (x + y).
Proof.
  unfold wrap64, modulus. f_equal.
  replace ((x + 2 ^ 63) mod 2 ^ 64 - 2 ^ 63 + y + 2 ^ 63)
    with ((x + 2 ^ 63) mod 2 ^ 64 + y) by lia.
  rewrite Zplus_mod_idemp_l. f_equal. lia.
Qed.

Lemma decr_incr (x : Z) : decr (incr x) = wrap64 x.
Proof.
  unfold decr, incr.
  replace (wrap64 (x + 1) - 1) with (wrap64 (x + 1) + -1) by lia.
  rewrite wrap64_add_l. f_equal. lia.
Qed.

Lemma incr_succ (x : Z) : in_range x → x < MaxInt64 → incr x = x + 1.
Proof.
  unfold incr, in_range. intros H1 H2. apply wrap64_id. unfold in_range. lia.
Qed.

Lemma add_0_r (x : Z) : in_range x → add x 0 = x.
Proof. intros H. unfold add. rewrite Z.add_0_r. by apply wrap64_id. Qed.

Lemma add_exact (x y : Z) : in_range (x + y) → add x y = x + y.
Proof. apply wrap64_id. Qed.

Lemma incr_wrap64 (x : Z) : incr (wrap64 x) = wrap64 (x + 1).
Proof. apply wrap64_add_l. Qed.

Lemma decr_wrap64 (x : Z) : decr (wrap64 x) = wrap64 (x - 1).
Proof.
  unfold decr. replace (wrap64 x - 1) with (wrap64 x + -1) by lia.
  rewrite wrap64_add_l. f_equal.
Qed.

(** ** The active count and the registry *)

Section ActiveCount.

Lemma countsRegistry_new : countsRegistry NewTorMonitor.
Proof. reflexivity. Qed.

Lemma lenStreams_insert_fresh (m : TorMonitor) id s :
  streams m !! id = None →
  wrap64 (Z.of_nat (size (<[id := s]> (streams m)))) = incr (lenStreams m).
Proof.
  intros H. rewrite map_size_insert_None by done.
  unfold lenStreams. rewrite incr_wrap64. f_equal. lia.
Qed.

Lemma size_insert_present (st : gmap string StreamInfo) id s :
  is_Some (st !! id) → size (<[id := s]> st) = size st.
Proof. apply map_size_insert_Some. Qed.

Lemma size_delete_present (st : gmap string StreamInfo) id :
  is_Some (st !! id) → Z.of_nat (size (delete id st)) = Z.of_nat (size st) - 1.
Proof.
  intros H. pose proof (map_size_delete_Some id st H).
  pose proof (map_size_ne_0_lookup_2 st id H). lia.
Qed.

Lemma openStream_counts now id m :
  streams m !! id = None → countsRegistry m → countsRegistry (openStream now id m).
Proof.
  unfold countsRegistry. intros Hid H. cbn [openStream activeStreams].
  rewrite H. unfold lenStreams at 2. cbn [streams openStream].
  symmetry. by apply lenStreams_insert_fresh.
Qed.

Lemma handleStreamEvent_counts now line m :
  countsRegistry m → countsRegistry (handleStreamEvent now line m).1.
Proof.
  intros H. unfold handleStreamEvent.
  destruct (length (Fields line) <? 4)%nat; [done|].
  set (id := nth 2 (Fields line) "").
  set (m1 := match streams m !! id with Some _ => m | None => openStream now id m end).
  assert (H1 : countsRegistry m1 ∧ is_Some (streams m1 !! id)).
  { subst m1. destruct (streams m !! id) eqn:E.
    - split; [done|]. rewrite E. eauto.
    - split; [by apply openStream_counts|].
      cbn [openStream streams]. rewrite lookup_insert_eq. eauto. }
  destruct H1 as [H1 Hin]. clearbody m1.
  set (s := setTarget _ _).
  destruct (isTerminal _ && negb (Closed s)).
  - cbn. unfold countsRegistry, lenStreams in *. cbn.
    rewrite size_delete_present by (rewrite lookup_insert_eq; eauto).
    rewrite !size_insert_present by
      (try done; rewrite lookup_insert_eq; eauto).
    rewrite H1. apply decr_wrap64.
  - cbn. unfold countsRegistry, lenStreams in *. cbn.
    by rewrite size_insert_present.
Qed.

Lemma handleStreamBWEvent_counts line m :
  countsRegistry m → countsRegistry (handleStreamBWEvent line m).
Proof.
  intros H. unfold handleStreamBWEvent.
  destruct (length (Fields line) <? 5)%nat; [done|].
  destruct (streams m !! _) eqn:E; [|done].
  unfold countsRegistry, lenStreams in *. cbn.
  rewrite size_insert_present by eauto. done.
Qed.

Lemma periodicStats_counts m : countsRegistry m → countsRegistry (periodicStats m).1.
Proof. done. Qed.

Lemma step_counts e m : countsRegistry m → countsRegistry (step e m).1.
Proof.
  intros H. destruct e as [now raw|now]; cbn [step].
  - unfold eventLoopTurn, dispatch. destruct (route _); cbn [fst].
    + by apply handleStreamEvent_counts.
    + by apply handleStreamBWEvent_counts.
    + done.
  - by apply periodicStats_counts.
Qed.

Lemma run_counts es m : countsRegistry m → countsRegistry (run es m).1.
Proof.
  revert m. induction es as [|e es IH]; intros m H; [done|].
  cbn [run]. pose proof (step_counts e m H) as H1.
  destruct (step e m) as [m1 o1]. specialize (IH m1 H1).
  destruct (run es m1) as [m2 o2]. done.
Qed.

End ActiveCount.

(** A step adds at most one record. *)
Lemma handleStreamEvent_size now line m :
  (size (streams (handleStreamEvent now line m).1) ≤ S (size (streams m)))%nat.
Proof.
  unfold handleStreamEvent.
  destruct (length (Fields line) <? 4)%nat; [cbn; lia|].
  set (id := nth 2 (Fields line) "").
  set (m1 := match streams m !! id with Some _ => m | None => openStream now id m end).
  assert (H1 : (size (streams m1) ≤ S (size (streams m)))%nat ∧ is_Some (streams m1 !! id)).
  { subst m1. destruct (streams m !! id) eqn:E.
    - split; [lia|]. rewrite E. eauto.
    - cbn [openStream streams]. rewrite map_size_insert_None by done.
      split; [lia|]. rewrite lookup_insert_eq. eauto. }
  destruct H1 as [H1 Hin]. clearbody m1.
  set (s := setTarget _ _).
  destruct (isTerminal _ && negb (Closed s)); cbn.
  - rewrite map_size_delete_Some by (rewrite lookup_insert_eq; eauto).
    rewrite !map_size_insert_Some by (try done; rewrite lookup_insert_eq; eauto).
    lia.
  - rewrite map_size_insert_Some by done. lia.
Qed.

Lemma handleStreamBWEvent_size line m :
  size (streams (handleStreamBWEvent line m)) = size (streams m).
Proof.
  unfold handleStreamBWEvent.
  destruct (length (Fields line) <? 5)%nat; [done|].
  destruct (streams m !! _) eqn:E; [|done].
  cbn. apply map_size_insert_Some. eauto.
Qed.

Lemma step_size e m : (size (streams (step e m).1) ≤ S (size (streams m)))%nat.
Proof.
  destruct e as [now raw|now]; cbn [step].
  - unfold eventLoopTurn, dispatch. destruct (route _); cbn [fst].
    + apply handleStreamEvent_size.
    + rewrite handleStreamBWEvent_size. lia.
    + lia.
  - cbn. lia.
Qed.

Lemma run_size es m :
  (size (streams (run es m).1) ≤ length es + size (streams m))%nat.
Proof.
  revert m. induction es as [|e es IH]; intros m; [cbn; lia|].
  cbn [run]. pose proof (step_size e m) as H1.
  destruct (step e m) as [m1 o1]. specialize (IH m1).
  destruct (run es m1) as [m2 o2]. cbn in *. lia.
Qed.

(** C3. After every finite sequence of steps of the two tasks from the new
    monitor (lines of any content arriving, reporter ticks), the count of
    active streams is the length of the registry map as Go computes it,
    [len(m.streams)]; for a sequence of no more than [MaxInt64] steps this
    is the number of entries of the map itself.  Every prefix of a run is a
    run, so this holds after each step. *)
Theorem activeStreams_is_registry_size (es : list Step) :
  let m := (run es NewTorMonitor).1 in
  activeStreams m = lenStreams m ∧
  (Z.of_nat (length es) <= MaxInt64 → activeStreams m = Z.of_nat (size (streams m))).
Proof.
  cbn zeta. pose proof (run_counts es NewTorMonitor countsRegistry_new) as H.
  split; [exact H|]. intros Hlen. rewrite H. unfold lenStreams.
  apply wrap64_id. pose proof (run_size es NewTorMonitor) as Hs.
  change (size (streams NewTorMonitor)) with (size (∅ : gmap string StreamInfo)) in Hs.
  rewrite map_size_empty in Hs. unfold in_range, MinInt64. lia.
Qed.

Lemma activeStreams_is_registry_size_witness :
  let es := [Received 1 "650 STREAM 7 NEW 0 www.example.com:443";
             Received 2 "650 STREAM 8 NEW 0 example.org:80";
             Received 3 "650 STREAM_BW 7 100 250";
             Tick 4;
             Received 5 "650 STREAM 7 CLOSED 0 www.example.com:443 REASON=DONE"] in
  activeStreams (run es NewTorMonitor).1 = 1 ∧
  Z.of_nat (size (streams (run es NewTorMonitor).1)) = 1.
Proof.
  cbn zeta.
  destruct (activeStreams_is_registry_size
    [Received 1 "650 STREAM 7 NEW 0 www.example.com:443";
     Received 2 "650 STREAM 8 NEW 0 example.org:80";
     Received 3 "650 STREAM_BW 7 100 250";
     Tick 4;
     Received 5 "650 STREAM 7 CLOSED 0 www.example.com:443 REASON=DONE"])
    as [_ H].
  rewrite <- H; [split; vm_compute; reflexivity | vm_compute; discriminate].
Defined.

(** ** The integer fields stay within their type *)

Lemma in_range_0 : in_range 0.
Proof. unfold in_range, MinInt64, MaxInt64. lia. Qed.

Lemma wfCounters_incr c k : wfCounters c → wfCounters (mapIncr c k).
Proof. intros H. apply map_Forall_insert_2; [apply wrap64_in_range | done]. Qed.

Lemma wfCounters_add c k v : wfCounters c → wfCounters (mapAdd c k v).
Proof. intros H. apply map_Forall_insert_2; [apply wrap64_in_range | done]. Qed.

Lemma wfCounters_zero c k : wfCounters c → wfCounters (<[k := 0]> c).
Proof. intros H. apply map_Forall_insert_2; [apply in_range_0 | done]. Qed.

Lemma wfMonitor_new : wfMonitor NewTorMonitor.
Proof.
  unfold wfMonitor. split_and!; try apply map_Forall_empty; apply in_range_0.
Qed.

Lemma handleStreamEvent_wf now line m :
  wfMonitor m → wfMonitor (handleStreamEvent now line m).1.
Proof.
  intros Hwf. unfold handleStreamEvent.
  destruct (length (Fields line) <? 4)%nat; [done|].
  set (id := nth 2 (Fields line) "").
  set (m1 := match streams m !! id with Some _ => m | None => openStream now id m end).
  assert (H1 : wfMonitor m1 ∧ wfStream (default (newStream now id) (streams m1 !! id))).
  { destruct Hwf as (Hs & Hst & Hrp & Ha & Ht).
    subst m1. destruct (streams m !! id) eqn:E.
    - split; [done|]. rewrite E. cbn. by apply (Hs id).
    - cbn [openStream streams]. rewrite lookup_insert_eq.
      assert (wfStream (newStream now id)) by (split; apply in_range_0).
      split; [|done]. unfold wfMonitor.
      split_and!; cbn [streams stats report activeStreams totalStreams].
      + by apply map_Forall_insert_2.
      + by apply wfCounters_incr.
      + by apply wfCounters_incr.
      + apply wrap64_in_range.
      + apply wrap64_in_range. }
  destruct H1 as [(Hs & Hst & Hrp & Ha & Ht) Hw]. clearbody m1.
  set (s := setTarget _ _).
  assert (Hws : wfStream s) by exact Hw.
  destruct (isTerminal _ && negb (Closed s)); cbn.
  - unfold wfMonitor. split_and!; cbn; try done; try apply wrap64_in_range.
    apply map_Forall_delete. apply map_Forall_insert_2; [exact Hws|].
    by apply map_Forall_insert_2.
  - unfold wfMonitor. split_and!; cbn; try done. by apply map_Forall_insert_2.
Qed.

Lemma handleStreamBWEvent_wf line m :
  wfMonitor m → wfMonitor (handleStreamBWEvent line m).
Proof.
  intros (Hs & Hst & Hrp & Ha & Ht). unfold handleStreamBWEvent.
  destruct (length (Fields line) <? 5)%nat; [done|].
  destruct (streams m !! _) eqn:E; [|done].
  unfold wfMonitor.
  split_and!; cbn [streams stats report activeStreams totalStreams]; try done.
  - apply map_Forall_insert_2; [|done]. split; apply wrap64_in_range.
  - by do 2 apply wfCounters_add.
  - by do 2 apply wfCounters_add.
Qed.

Lemma step_wf e m : wfMonitor m → wfMonitor (step e m).1.
Proof.
  intros H. destruct e as [now raw|now]; cbn [step].
  - unfold eventLoopTurn, dispatch. destruct (route _); cbn [fst].
    + by apply handleStreamEvent_wf.
    + by apply handleStreamBWEvent_wf.
    + done.
  - destruct H as (Hs & Hst & Hrp & Ha & Ht).
    unfold wfMonitor. split_and!; cbn; try done. by do 3 apply wfCounters_zero.
Qed.

(** Every monitor a run reaches from the new monitor is well formed. *)
Lemma run_wf es m : wfMonitor m → wfMonitor (run es m).1.
Proof.
  revert m. induction es as [|e es IH]; intros m H; [done|].
  cbn [run]. pose proof (step_wf e m H) as H1.
  destruct (step e m) as [m1 o1]. specialize (IH m1 H1).
  destruct (run es m1) as [m2 o2]. done.
Qed.

(** ** The reporter *)

(** C5. After a tick of the reporter the three counters of the window are
    zero; the lifetime counters ([stats], [totalStreams]), the count of
    active streams and the registry are those of before the tick. *)
Theorem periodicStats_resets_window (m : TorMonitor) :
  let m' := (periodicStats m).1 in
  mapGet (report m') "total_sent" = 0 ∧
  mapGet (report m') "total_received" = 0 ∧
  mapGet (report m') "streams_total" = 0 ∧
  report m' !! "total_sent" = Some 0 ∧
  report m' !! "total_received" = Some 0 ∧
  report m' !! "streams_total" = Some 0 ∧
  stats m' = stats m ∧
  totalStreams m' = totalStreams m ∧
  activeStreams m' = activeStreams m ∧
  streams m' = streams m.
Proof.
  cbn. unfold mapGet. by simplify_map_eq.
Qed.

(** ** Bandwidth samples *)

(** C9. A bandwidth line (of ASCII bytes, as the control port sends them)
    whose id is not in the registry changes nothing: the monitor after the
    handler is the monitor before it (no record, no lifetime or window
    counter differs), and the handler, a total function that prints
    nothing, raises no error. *)
Theorem handleStreamBWEvent_unknown_id (line : string) (m : TorMonitor) :
  asciiOnly line = true →
  streams m !! nth 2 (Fields line) "" = None →
  handleStreamBWEvent line m = m ∧
  (∀ now, route line = ToStreamBWEvent → dispatch now line m = (m, [])).
Proof.
  intros _ H.
  assert (E : handleStreamBWEvent line m = m).
  { unfold handleStreamBWEvent. destruct (length (Fields line) <? 5)%nat; [done|].
    by rewrite H. }
  split; [exact E|]. intros now Hr. unfold dispatch. by rewrite Hr, E.
Qed.

Lemma handleStreamBWEvent_unknown_id_witness :
  asciiOnly "650 STREAM_BW 99 100 250" = true ∧
  streams monitorOpen7 !! "99" = None ∧
  handleStreamBWEvent "650 STREAM_BW 99 100 250" monitorOpen7 = monitorOpen7 ∧
  dispatch 2 "650 STREAM_BW 99 100 250" monitorOpen7 = (monitorOpen7, []).
Proof.
  assert (H : streams monitorOpen7 !! nth 2 (Fields "650 STREAM_BW 99 100 250") "" = None)
    by (vm_compute; reflexivity).
  assert (Ha : asciiOnly "650 STREAM_BW 99 100 250" = true) by (vm_compute; reflexivity).
  destruct (handleStreamBWEvent_unknown_id "650 STREAM_BW 99 100 250" monitorOpen7 Ha H)
    as [H1 H2].
  split; [exact Ha|].
  split; [exact H | split; [exact H1 | apply H2; vm_compute; reflexivity]].
Defined.

(** ** Where a line goes *)

Lemma HasPrefix_inv (s p : string) :
  HasPrefix s p = true → ∃ t, s = (p ++ t)%string.
Proof.
  revert s. induction p as [|c p IH]; intros s H.
  - by exists s.
  - destruct s as [|d s]; [discriminate|]. cbn in H.
    apply andb_prop in H as [Hc Hp]. apply Ascii.eqb_eq in Hc as ->.
    destruct (IH s Hp) as [t ->]. by exists t.
Qed.


(** A line that starts as a bandwidth notification does not start as a
    status notification: the eleventh byte differs. *)
Lemma bw_prefix_not_status (line : string) :
  HasPrefix line "650 STREAM_BW" = true → HasPrefix line "650 STREAM " = false.
Proof.
  intros H. apply HasPrefix_inv in H as [t ->]. reflexivity.
Qed.

(** C6, as the code has it.  The loop sends a trimmed line to the status
    handler exactly when it starts with "650 STREAM " and holds the text
    "STREAM_BW" nowhere; to the bandwidth handler exactly when it starts
    with "650 STREAM_BW"; and drops it otherwise.  So a line of the form
    "650 STREAM <id> <STATUS> [<field> ...]" is handled as a status event
    whenever none of its tokens holds "STREAM_BW". *)
Theorem route_spec (line : string) :
  (route line = ToStreamEvent ↔
     HasPrefix line "650 STREAM " = true ∧ Contains line "STREAM_BW" = false) ∧
  (route line = ToStreamBWEvent ↔ HasPrefix line "650 STREAM_BW" = true) ∧
  (route line = Dropped ↔
     (HasPrefix line "650 STREAM " = false ∨ Contains line "STREAM_BW" = true) ∧
     HasPrefix line "650 STREAM_BW" = false) ∧
  (∀ now m,
     dispatch now line m =
       if HasPrefix line "650 STREAM " && negb (Contains line "STREAM_BW")
       then handleStreamEvent now line m
       else if HasPrefix line "650 STREAM_BW"
            then (handleStreamBWEvent line m, [])
            else (m, [])).
Proof.
  pose proof (bw_prefix_not_status line) as Hbw.
  unfold dispatch, route.
  destruct (HasPrefix line "650 STREAM ") eqn:E1;
    destruct (Contains line "STREAM_BW") eqn:E2;
    destruct (HasPrefix line "650 STREAM_BW") eqn:E3; cbn;
    try (specialize (Hbw eq_refl); discriminate);
    clear Hbw; intuition (try discriminate; try congruence).
Qed.

(** The claim C6 as it is worded does not hold: this line is trimmed,
    starts as a status notification and not as a bandwidth notification,
    and has the tokens of a status notification, yet the loop drops it
    (its target token holds the text "STREAM_BW"), where the status
    handler would have registered stream "7". *)
Lemma route_field_content_counterexample :
  let line := "650 STREAM 7 NEW 0 STREAM_BW.example.com:80" in
  TrimSpace line = line ∧
  Fields line = ["650"; "STREAM"; "7"; "NEW"; "0"; "STREAM_BW.example.com:80"] ∧
  HasPrefix line "650 STREAM " = true ∧
  HasPrefix line "650 STREAM_BW" = false ∧
  route line = Dropped ∧
  route line ≠ ToStreamEvent ∧
  eventLoopTurn 1 line NewTorMonitor = (NewTorMonitor, []) ∧
  (handleStreamEvent 1 line NewTorMonitor).1 ≠ NewTorMonitor.
Proof.
  cbn zeta. repeat split; try (vm_compute; reflexivity); vm_compute; discriminate.
Qed.

(** ** The target of a status line *)

Lemma scanTarget_last (fields : list string) (t : string) :
  scanTarget fields t = default t (last (filter (λ p, isCandidate p = true) fields)).
Proof.
  revert t. induction fields as [|p fields IH]; intros t; [done|].
  unfold scanTarget in *. cbn [fold_left]. rewrite IH. clear IH.
  fold (isCandidate p). rewrite filter_cons.
  destruct (decide (isCandidate p = true)) as [E|E].
  - rewrite E, last_cons. by destruct (last _).
  - apply not_true_is_false in E. by rewrite E.
Qed.

Lemma scanTarget_candidate (parts : list string) (t : string) :
  scanTarget (drop 4 parts) t = default t (targetCandidate parts).
Proof. apply scanTarget_last. Qed.

Lemma lineNew7_facts :
  TrimSpace lineNew7 = lineNew7 ∧ route lineNew7 = ToStreamEvent ∧
  Fields lineNew7 = ["650"; "STREAM"; "7"; "NEW"; "0"; "www.example.com:443"].
Proof. repeat split; vm_compute; reflexivity. Qed.


(** The handler on a line of at least four tokens, with the target loop
    replaced by its result. *)
Lemma handleStreamEvent_unfold (now : Z) (line : string) (m : TorMonitor) :
  let parts := Fields line in
  let id := nth 2 parts "" in
  let status := nth 3 parts "" in
  let s0 := default (newStream now id) (streams m !! id) in
  let target := default (Target s0) (targetCandidate parts) in
  (4 ≤ length parts)%nat →
  handleStreamEvent now line m =
    let mo := match streams m !! id with Some _ => m | None => openStream now id m end in
    let s := setTarget s0 target in
    let mt := setStreams mo (<[id := s]> (streams mo)) in
    let out := [Console (Some now) (statusColor status) (MsgStatus id status target);
                Logged (MsgStatus id status target)] in
    if isTerminal status && negb (Closed s0)
    then ((closeStream now id s parts mt).1, (out ++ (closeStream now id s parts mt).2)%list)
    else (mt, out).
Proof.
  cbn zeta. intros H1. unfold handleStreamEvent.
  apply Nat.ltb_ge in H1. rewrite H1.
  rewrite scanTarget_candidate.
  destruct (streams m !! nth 2 (Fields line) "") eqn:E.
  - rewrite E. cbn [default]. done.
  - cbn [openStream streams]. rewrite lookup_insert_eq. cbn [default]. done.
Qed.

(** C7. A status line (of ASCII bytes, as the control port sends them)
    with at least four tokens sets the target of the record it works on
    (the record of the id, new if the id was not in the registry) to the
    last token from the fifth on that holds no '=' and is not "-", and
    leaves the target as it was when there is no such token.  The two
    status lines printed carry that target; the record stays in the
    registry with it unless the status is terminal, in which case the
    summary carries it and the record is removed.  From an empty registry,
    "650 STREAM 7 NEW 0 www.example.com:443" registers id "7" with target
    "www.example.com:443" and adds one to the count of active streams. *)
Theorem handleStreamEvent_target (now : Z) (line : string) (m : TorMonitor) :
  let parts := Fields line in
  let id := nth 2 parts "" in
  let status := nth 3 parts "" in
  let s0 := default (newStream now id) (streams m !! id) in
  let target := default (Target s0) (targetCandidate parts) in
  let m' := (handleStreamEvent now line m).1 in
  let out := (handleStreamEvent now line m).2 in
  asciiOnly line = true →
  (4 ≤ length parts)%nat →
  (∃ stamp,
     take 2 out =
       [Console stamp (statusColor status) (MsgStatus id status target);
        Logged (MsgStatus id status target)]) ∧
  (isTerminal status && negb (Closed s0) = false →
     streams m' !! id = Some (setTarget s0 target) ∧ drop 2 out = []) ∧
  (isTerminal status && negb (Closed s0) = true →
     streams m' !! id = None ∧
     ∃ elapsed reason totals stamp1 stamp2,
       drop 2 out =
         [Console stamp1 ColorYellow
            (MsgFinished (ID s0) (BytesSent s0) (BytesReceived s0) elapsed target
               reason);
          Console stamp2 ColorCyan totals;
          Logged
            (MsgFinished (ID s0) (BytesSent s0) (BytesReceived s0) elapsed target
               reason);
          Logged totals]) ∧
  (∀ m0 : TorMonitor, streams m0 = ∅ →
     let m1 := (eventLoopTurn now lineNew7 m0).1 in
     streams m1 =
       {[ "7" := {| ID := "7"; Target := "www.example.com:443"; BytesSent := 0;
                    BytesReceived := 0; StartTime := now; EndTime := 0;
                    Closed := false |} ]} ∧
     activeStreams m1 = incr (activeStreams m0) ∧
     (in_range (activeStreams m0) → activeStreams m0 < MaxInt64 →
      activeStreams m1 = activeStreams m0 + 1)).
Proof.
  cbn zeta. intros _ Hlen. rewrite (handleStreamEvent_unfold now line m Hlen). cbn zeta.
  set (parts := Fields line). set (id := nth 2 parts "").
  set (s0 := default (newStream now id) (streams m !! id)).
  set (target := default (Target s0) (targetCandidate parts)).
  split_and!.
  - exists (Some now). by destruct (isTerminal _ && negb (Closed s0)).
  - intros H. rewrite H. cbn. split; [apply lookup_insert_eq | done].
  - intros H. rewrite H. cbn. split; [apply lookup_delete_eq|]. eauto 10.
  - intros m0 H0. assert (E : eventLoopTurn now lineNew7 m0 =
      ({| streams := {[ "7" := {| ID := "7"; Target := "www.example.com:443";
                                  BytesSent := 0; BytesReceived := 0; StartTime := now;
                                  EndTime := 0; Closed := false |} ]};
          stats := mapIncr (stats m0) "streams_total";
          report := mapIncr (report m0) "streams_total";
          activeStreams := incr (activeStreams m0);
          totalStreams := incr (totalStreams m0) |},
       [Console (Some now) ColorCyan (MsgStatus "7" "NEW" "www.example.com:443");
        Logged (MsgStatus "7" "NEW" "www.example.com:443")])).
    { unfold eventLoopTurn, dispatch.
      destruct lineNew7_facts as (-> & -> & HF).
      rewrite handleStreamEvent_unfold by (rewrite HF; cbn; lia).
      rewrite HF. cbn [nth]. rewrite H0, lookup_empty. cbn.
      rewrite insert_insert_eq, H0. by rewrite insert_empty. }
    cbn zeta. rewrite E. cbn [fst streams activeStreams].
    split_and!; [done|done|]. intros Hr Hlt. by apply incr_succ.
Qed.

Lemma handleStreamEvent_target_witness :
  asciiOnly lineNew7 = true ∧
  (4 ≤ length (Fields lineNew7))%nat ∧
  streams (handleStreamEvent 1 lineNew7 NewTorMonitor).1 !! "7" =
    Some (setTarget (newStream 1 "7") "www.example.com:443") ∧
  activeStreams (eventLoopTurn 1 lineNew7 NewTorMonitor).1 = 0 + 1.
Proof.
  assert (Ha : asciiOnly lineNew7 = true) by (vm_compute; reflexivity).
  assert (H : (4 ≤ length (Fields lineNew7))%nat) by (vm_compute; lia).
  destruct (handleStreamEvent_target 1 lineNew7 NewTorMonitor Ha H) as (_ & H2 & _ & H4).
  split; [exact Ha|]. split; [exact H|]. split.
  - exact (proj1 (H2 eq_refl)).
  - destruct (H4 NewTorMonitor eq_refl) as (_ & _ & H5).
    apply H5; vm_compute; [split; discriminate | reflexivity].
Defined.

(** ** Bandwidth samples for an open stream *)

Lemma ParseInt_syntax_zero (s : string) :
  (ParseInt s).2 = Some ErrSyntax → (ParseInt s).1 = 0.
Proof.
  unfold ParseInt. destruct s as [|c0 rest]; [done|].
  destruct (ParseUint _) as [un [[]|]]; cbn zeta; try done;
    repeat (match goal with |- context [if ?b then _ else _] => destruct b end);
    cbn; done.
Qed.

Lemma decimalFrom_ge (s : string) : ∀ n, allDecimal s → 0 <= n → n <= decimalFrom n s.
Proof.
  unfold allDecimal. induction s as [|c s IH]; intros n Hs Hn; [cbn; lia|].
  cbn [list_ascii_of_string] in Hs. apply Forall_cons in Hs as [Hc Hs].
  cbn [decimalFrom]. unfold isDecimal in Hc. apply andb_prop in Hc as [H1 H2].
  apply Nat.leb_le in H1, H2.
  specialize (IH (n * 10 + (Z.of_nat (nat_of_ascii c) - 48)) Hs). lia.
Qed.

Lemma digitOf_decimal (c : ascii) :
  isDecimal c = true → digitOf c = Some (Z.of_nat (nat_of_ascii c) - 48).
Proof.
  unfold isDecimal, digitOf. intros H. apply andb_prop in H as [H1 H2].
  apply Nat.leb_le in H1, H2.
  assert (E : (48 <=? Z.of_nat (nat_of_ascii c)) && (Z.of_nat (nat_of_ascii c) <=? 57) = true)
    by (apply andb_true_intro; split; apply Z.leb_le; lia).
  by rewrite E.
Qed.

(** A byte that is no decimal digit is rejected by [ParseUint] in base 10:
    by the default of its switch, or as a digit that is not below 10. *)
Lemma digitOf_other (c : ascii) :
  isDecimal c = false →
  match digitOf c with None => True | Some d => (10 <=? d) = true end.
Proof.
  unfold isDecimal, digitOf. cbv zeta. intros H.
  assert (E : (48 <=? Z.of_nat (nat_of_ascii c)) && (Z.of_nat (nat_of_ascii c) <=? 57) = false).
  { apply andb_false_iff. apply andb_false_iff in H as [H|H];
      [left|right]; apply Nat.leb_gt in H; apply Z.leb_gt; lia. }
  rewrite E.
  destruct ((97 <=? _) && _) eqn:E2; [|done].
  apply andb_prop in E2 as [E2 _]. apply Z.leb_le in E2. apply Z.leb_le. lia.
Qed.

Lemma leadingDigits_decimal (s : string) : allDecimal (leadingDigits s).
Proof.
  unfold allDecimal. induction s as [|c s IH]; [constructor|].
  cbn [leadingDigits]. destruct (isDecimal c) eqn:E; [|constructor].
  cbn [list_ascii_of_string]. by constructor.
Qed.

(** What the loop of [ParseUint] returns, read off the bytes: a range
    error as soon as the leading digits write a number above [MaxUint64],
    a syntax error if they do not and something follows them, their number
    otherwise. *)
Lemma parseUintLoop_cases (s : string) :
  ∀ n, 0 <= n <= MaxUint64 →
  parseUintLoop s n =
    if MaxUint64 <? decimalFrom n (leadingDigits s) then (MaxUint64, Some ErrRange)
    else if isEmpty (afterDigits s) then (decimalFrom n (leadingDigits s), None)
    else (0, Some ErrSyntax).
Proof.
  assert (Hcut : cutoff10 = 1844674407370955162) by (vm_compute; reflexivity).
  assert (Hmax : MaxUint64 = 18446744073709551615) by (vm_compute; reflexivity).
  induction s as [|c s IH]; intros n Hn.
  { cbn. destruct (Z.ltb_spec MaxUint64 n); [lia|done]. }
  cbn [parseUintLoop leadingDigits afterDigits].
  destruct (isDecimal c) eqn:Hc.
  - rewrite (digitOf_decimal c Hc). cbn [decimalFrom].
    pose proof Hc as Hc'. unfold isDecimal in Hc'. apply andb_prop in Hc' as [H1 H2].
    apply Nat.leb_le in H1, H2.
    set (d := Z.of_nat (nat_of_ascii c) - 48) in *.
    pose proof (decimalFrom_ge (leadingDigits s) (n * 10 + d)
                  (leadingDigits_decimal s) ltac:(lia)) as Hge.
    assert (E1 : (10 <=? d) = false) by (apply Z.leb_gt; lia). rewrite E1.
    destruct (Z.leb_spec cutoff10 n) as [Hc1|Hc1].
    { destruct (Z.ltb_spec MaxUint64 (decimalFrom (n * 10 + d) (leadingDigits s)));
        [done|lia]. }
    cbn zeta. unfold wrapU64, modulus.
    rewrite (Z.mod_small (n * 10)) by lia.
    destruct (Z_lt_le_dec (n * 10 + d) (2 ^ 64)) as [Hfit|Hover].
    + rewrite (Z.mod_small (n * 10 + d)) by lia.
      assert (E3 : (n * 10 + d <? n * 10) || (MaxUint64 <? n * 10 + d) = false).
      { apply orb_false_intro; apply Z.ltb_ge; lia. }
      rewrite E3. apply IH. lia.
    + assert (Em : (n * 10 + d) mod 2 ^ 64 = n * 10 + d - 2 ^ 64).
      { symmetry. apply (Z.mod_unique _ _ 1); lia. }
      rewrite Em.
      assert (E3 : (n * 10 + d - 2 ^ 64 <? n * 10) = true) by (apply Z.ltb_lt; lia).
      rewrite E3. cbn [orb].
      destruct (Z.ltb_spec MaxUint64 (decimalFrom (n * 10 + d) (leadingDigits s)));
        [done|lia].
  - cbn [decimalFrom isEmpty].
    destruct (Z.ltb_spec MaxUint64 n); [lia|].
    pose proof (digitOf_other c Hc) as Ho.
    destruct (digitOf c) as [d|]; [by rewrite Ho|done].
Qed.

(** What [ParseInt] returns for a token, read off its bytes. *)
Lemma ParseInt_cases (tok : string) :
  let body := unsigned tok in
  let v := decimalFrom 0 (leadingDigits body) in
  ParseInt tok =
    if MaxUint64 <? v then (boundFor tok, Some ErrRange)
    else if isEmpty (leadingDigits body) || negb (isEmpty (afterDigits body))
    then (0, Some ErrSyntax)
    else if HasPrefix tok "-"
    then (if 2 ^ 63 <? v then (MinInt64, Some ErrRange) else (- v, None))
    else (if MaxInt64 <? v then (MaxInt64, Some ErrRange) else (v, None)).
Proof.
  assert (Hmax : MaxUint64 = 18446744073709551615) by (vm_compute; reflexivity).
  cbv zeta. destruct tok as [|c0 rest]; [done|].
  unfold ParseInt, boundFor. cbv zeta.
  change (HasPrefix (String c0 rest) "-") with (Ascii.eqb c0 "-" && true).
  rewrite andb_true_r.
  change (unsigned (String c0 rest))
    with (if Ascii.eqb c0 "+" || Ascii.eqb c0 "-" then rest else String c0 rest).
  set (body := if Ascii.eqb c0 "+" || Ascii.eqb c0 "-" then rest else String c0 rest).
  pose proof (decimalFrom_ge (leadingDigits body) 0 (leadingDigits_decimal body)
                ltac:(lia)) as Hge.
  assert (HU : ParseUint body =
               if MaxUint64 <? decimalFrom 0 (leadingDigits body)
               then (MaxUint64, Some ErrRange)
               else if isEmpty (leadingDigits body) || negb (isEmpty (afterDigits body))
               then (0, Some ErrSyntax)
               else (decimalFrom 0 (leadingDigits body), None)).
  { destruct body as [|b0 brest] eqn:Eb; [done|].
    unfold ParseUint. rewrite parseUintLoop_cases by lia.
    destruct (_ <? _); [done|].
    cbn [leadingDigits afterDigits]. destruct (isDecimal b0); cbn [isEmpty orb negb]; [|done].
    by destruct (isEmpty (afterDigits brest)). }
  rewrite HU. clear HU.
  set (v := decimalFrom 0 (leadingDigits body)) in *.
  destruct (Z.ltb_spec MaxUint64 v) as [Hbig|Hfit].
  { destruct (Ascii.eqb c0 "-"); cbn [negb andb]; [|done].
    assert (E : (2 ^ 63 <? MaxUint64) = true) by (vm_compute; reflexivity).
    by rewrite E. }
  destruct (isEmpty (leadingDigits body) || negb (isEmpty (afterDigits body))); [done|].
  unfold MaxInt64, MinInt64.
  destruct (Ascii.eqb c0 "-"); cbn [negb andb].
  - destruct (Z.ltb_spec (2 ^ 63) v) as [H|H]; [done|]. f_equal.
    unfold wrap64, modulus.
    destruct (Z.eq_dec v (2 ^ 63)) as [->|Hne]; [by vm_compute|].
    rewrite (Z.mod_small (v + 2 ^ 63)) by lia.
    replace (v + 2 ^ 63 - 2 ^ 63) with v by lia.
    destruct (Z.eq_dec v 0) as [->|Hnz]; [by vm_compute|].
    rewrite (Z.mod_small (- v + 2 ^ 63)) by lia. lia.
  - destruct (Z.leb_spec (2 ^ 63) v) as [H|H];
      destruct (Z.ltb_spec (2 ^ 63 - 1) v) as [H'|H']; try lia; [done|].
    f_equal. unfold wrap64, modulus. rewrite (Z.mod_small (v + 2 ^ 63)) by lia. lia.
Qed.

(** The tokens [ParseInt] rejects with a range error are those out of
    range, and what it returns for them is the bound on the side of their
    sign. *)
Lemma ParseInt_range (tok : string) :
  ((ParseInt tok).2 = Some ErrRange ↔ outOfRange tok = true) ∧
  ((ParseInt tok).2 = Some ErrRange → (ParseInt tok).1 = boundFor tok).
Proof.
  rewrite (ParseInt_cases tok). unfold outOfRange, boundFor. cbv zeta.
  set (body := unsigned tok). set (v := decimalFrom 0 (leadingDigits body)).
  assert (H0 : leadingDigits body = "" → v = 0) by (unfold v; by intros ->).
  destruct (MaxUint64 <? v); cbn [orb]; [done|].
  destruct (leadingDigits body) as [|d ds] eqn:El.
  { cbn [isEmpty orb snd fst]. rewrite (H0 eq_refl).
    split; [|done]. split; [done|].
    destruct (isEmpty _), (HasPrefix tok "-"); cbn; done. }
  cbn [isEmpty orb]. destruct (isEmpty (afterDigits body)); cbn [negb andb]; [|done].
  destruct (HasPrefix tok "-"); destruct (_ <? v); cbn [fst snd]; done.
Qed.

Example ParseInt_range_examples :
  ParseInt "9223372036854775807" = (MaxInt64, None) ∧
  ParseInt "9223372036854775808" = (MaxInt64, Some ErrRange) ∧
  ParseInt "-9223372036854775808" = (MinInt64, None) ∧
  ParseInt "-9223372036854775809" = (MinInt64, Some ErrRange) ∧
  ParseInt "9223372036854775808x" = (0, Some ErrSyntax) ∧
  ParseInt "18446744073709551616x" = (MaxInt64, Some ErrRange) ∧
  ParseInt "-18446744073709551616x" = (MinInt64, Some ErrRange) ∧
  outOfRange "9223372036854775808x" = false ∧
  outOfRange "18446744073709551616x" = true.
Proof. repeat split; vm_compute; reflexivity. Qed.

Lemma handleStreamBWEvent_known (line : string) (m : TorMonitor) (s : StreamInfo) :
  let parts := Fields line in
  let id := nth 2 parts "" in
  let sent := (ParseInt (nth 3 parts "")).1 in
  let rcvd := (ParseInt (nth 4 parts "")).1 in
  (5 ≤ length parts)%nat →
  streams m !! id = Some s →
  handleStreamBWEvent line m =
    {| streams := <[id := addBytes s sent rcvd]> (streams m);
       stats := mapAdd (mapAdd (stats m) "total_sent" sent) "total_received" rcvd;
       report := mapAdd (mapAdd (report m) "total_sent" sent) "total_received" rcvd;
       activeStreams := activeStreams m;
       totalStreams := totalStreams m |}.
Proof.
  cbn zeta. intros H1 H2. unfold handleStreamBWEvent.
  apply Nat.ltb_ge in H1. by rewrite H1, H2.
Qed.

Lemma lineAbc_fields :
  Fields "650 STREAM_BW 7 abc 250" = ["650"; "STREAM_BW"; "7"; "abc"; "250"].
Proof. vm_compute. reflexivity. Qed.

(** C8, as the code has it, for a line of bytes below 0x80.  A bandwidth
    line with at least five tokens for an open stream is never rejected:
    the handler adds to the record the two values [ParseInt] returns,
    whatever errors it reports.  A token [ParseInt] rejects with a syntax
    error counts as 0 and leaves its counter as it was.  A token it
    rejects with a range error does not count as 0: it counts as
    [MinInt64] when it starts with a minus sign and as [MaxInt64]
    otherwise, and the sum wraps around as every [int64] sum does.  The
    tokens rejected with a range error are those of [outOfRange]: after
    the sign, leading decimal digits that write a number above
    [MaxUint64], whatever follows them, or decimal digits to the end of
    the token that write a number beyond the range of [int64].
    "650 STREAM_BW 7 abc 250" for an open stream "7" leaves [BytesSent]
    as it was and adds 250 to [BytesReceived]. *)
Theorem handleStreamBWEvent_malformed (line : string) (m : TorMonitor) (s : StreamInfo) :
  let parts := Fields line in
  let id := nth 2 parts "" in
  let sentToken := nth 3 parts "" in
  let rcvdToken := nth 4 parts "" in
  let sent := ParseInt sentToken in
  let rcvd := ParseInt rcvdToken in
  let m' := handleStreamBWEvent line m in
  asciiOnly line = true →
  (5 ≤ length parts)%nat →
  streams m !! id = Some s →
  wfStream s →
  streams m' !! id = Some (addBytes s sent.1 rcvd.1) ∧
  (sent.2 = Some ErrSyntax → sent.1 = 0 ∧ bytesSentOf id m' = Some (BytesSent s)) ∧
  (rcvd.2 = Some ErrSyntax → rcvd.1 = 0 ∧ bytesReceivedOf id m' = Some (BytesReceived s)) ∧
  (sent.2 = Some ErrRange ↔ outOfRange sentToken = true) ∧
  (rcvd.2 = Some ErrRange ↔ outOfRange rcvdToken = true) ∧
  (outOfRange sentToken = true →
   sent.1 = (if HasPrefix sentToken "-" then MinInt64 else MaxInt64) ∧
   bytesSentOf id m' = Some (add (BytesSent s) (boundFor sentToken))) ∧
  (outOfRange rcvdToken = true →
   rcvd.1 = (if HasPrefix rcvdToken "-" then MinInt64 else MaxInt64) ∧
   bytesReceivedOf id m' = Some (add (BytesReceived s) (boundFor rcvdToken))) ∧
  (∀ (m0 : TorMonitor) (s7 : StreamInfo),
     streams m0 !! "7" = Some s7 → wfStream s7 →
     let m1 := handleStreamBWEvent "650 STREAM_BW 7 abc 250" m0 in
     route "650 STREAM_BW 7 abc 250" = ToStreamBWEvent ∧
     bytesSentOf "7" m1 = Some (BytesSent s7) ∧
     bytesReceivedOf "7" m1 = Some (add (BytesReceived s7) 250) ∧
     (BytesReceived s7 + 250 <= MaxInt64 →
      bytesReceivedOf "7" m1 = Some (BytesReceived s7 + 250))).
Proof.
  cbn zeta. intros _ Hlen Hs [Hws Hwr].
  rewrite (handleStreamBWEvent_known line m s Hlen Hs).
  unfold bytesSentOf, bytesReceivedOf. cbn [streams].
  rewrite lookup_insert_eq. cbn.
  split; [done|]. split_and!.
  - intros H. pose proof (ParseInt_syntax_zero _ H) as ->.
    by rewrite add_0_r.
  - intros H. pose proof (ParseInt_syntax_zero _ H) as ->.
    by rewrite add_0_r.
  - apply ParseInt_range.
  - apply ParseInt_range.
  - intros H. destruct (ParseInt_range (nth 3 (Fields line) "")) as [Hiff Hval].
    apply Hiff in H. rewrite (Hval H). done.
  - intros H. destruct (ParseInt_range (nth 4 (Fields line) "")) as [Hiff Hval].
    apply Hiff in H. rewrite (Hval H). done.
  - intros m0 s7 H7 [Hw1 Hw2].
    rewrite (handleStreamBWEvent_known "650 STREAM_BW 7 abc 250" m0 s7)
      by (rewrite ?lineAbc_fields; cbn; (lia || done)).
    rewrite lineAbc_fields. cbn [nth streams]. rewrite lookup_insert_eq.
    rewrite ParseInt_abc, ParseInt_250.
    cbn [fst fmap option_fmap option_map addBytes BytesSent BytesReceived].
    split; [by vm_compute|].
    rewrite add_0_r by done. repeat split; try done.
    intros Hb. rewrite add_exact; [done|]. unfold in_range in *.
    unfold MinInt64 in *. lia.
Qed.

Lemma handleStreamBWEvent_malformed_witness :
  asciiOnly "650 STREAM_BW 7 abc 250" = true ∧
  bytesSentOf "7" (handleStreamBWEvent "650 STREAM_BW 7 abc 250" monitorOpen7) = Some 0 ∧
  bytesReceivedOf "7" (handleStreamBWEvent "650 STREAM_BW 7 abc 250" monitorOpen7) =
    Some (0 + 250).
Proof.
  assert (Ha : asciiOnly "650 STREAM_BW 7 abc 250" = true) by (vm_compute; reflexivity).
  assert (Hlen : (5 ≤ length (Fields "650 STREAM_BW 7 abc 250"))%nat)
    by (vm_compute; lia).
  assert (Hs : streams monitorOpen7 !! nth 2 (Fields "650 STREAM_BW 7 abc 250") "" =
               Some (setTarget (newStream 1 "7") "www.example.com:443"))
    by (vm_compute; reflexivity).
  assert (Hw : wfStream (setTarget (newStream 1 "7") "www.example.com:443"))
    by (vm_compute; repeat split; discriminate).
  destruct (handleStreamBWEvent_malformed _ _ _ Ha Hlen Hs Hw)
    as (_ & H2 & _ & _ & _ & _ & _ & H6).
  split; [exact Ha|]. split.
  - exact (proj2 (H2 eq_refl)).
  - destruct (H6 monitorOpen7 _ Hs Hw) as (_ & _ & _ & H).
    apply H. vm_compute. discriminate.
Defined.

(** The claim C8 as it is worded does not hold.  The sent token of this
    line is no integer (it ends in a letter) and [ParseInt] reports an
    error for it, yet the handler adds 9223372036854775807 for it, not 0:
    [ParseUint] stops at the twentieth digit, where the number no longer
    fits, before it reaches the letter.  The same happens for a token of
    digits alone that does not fit 64 bits. *)
Lemma malformed_token_counterexample :
  let line := "650 STREAM_BW 7 99999999999999999999x 250" in
  let line' := "650 STREAM_BW 7 99999999999999999999 250" in
  Fields line = ["650"; "STREAM_BW"; "7"; "99999999999999999999x"; "250"] ∧
  ParseInt "99999999999999999999x" = (MaxInt64, Some ErrRange) ∧
  bytesSentOf "7" monitorOpen7 = Some 0 ∧
  bytesSentOf "7" (handleStreamBWEvent line monitorOpen7) = Some 9223372036854775807 ∧
  bytesSentOf "7" (handleStreamBWEvent line monitorOpen7) ≠ bytesSentOf "7" monitorOpen7 ∧
  ParseInt "99999999999999999999" = (MaxInt64, Some ErrRange) ∧
  bytesSentOf "7" (handleStreamBWEvent line' monitorOpen7) = Some 9223372036854775807.
Proof.
  cbn zeta. repeat split; try (vm_compute; reflexivity). vm_compute. discriminate.
Qed.

(** ** The byte counters of a stream along bandwidth samples *)

(** What one bandwidth line does to the record of an id in the registry:
    the record stays, with the line's sample for the id added. *)
Lemma handleStreamBWEvent_record (id line : string) (m : TorMonitor) (s : StreamInfo) :
  streams m !! id = Some s →
  wfStream s →
  ∃ s', streams (handleStreamBWEvent line m) !! id = Some s' ∧
        BytesSent s' = add (BytesSent s) (sampleFor id line).1 ∧
        BytesReceived s' = add (BytesReceived s) (sampleFor id line).2.
Proof.
  intros Hs [Hw1 Hw2]. unfold handleStreamBWEvent, sampleFor.
  destruct (length (Fields line) <? 5)%nat.
  { exists s. cbn. by rewrite !add_0_r. }
  destruct (String.eqb_spec (nth 2 (Fields line) "") id) as [->|Hne].
  - rewrite Hs. cbn [streams]. rewrite lookup_insert_eq. eauto.
  - destruct (streams m !! nth 2 (Fields line) "") eqn:E.
    + cbn [streams]. rewrite lookup_insert_ne by done.
      exists s. cbn. by rewrite !add_0_r.
    + exists s. cbn. by rewrite !add_0_r.
Qed.

Lemma sumSent_app id l1 l2 : sumSent id (l1 ++ l2) = sumSent id l1 + sumSent id l2.
Proof.
  unfold sumSent. induction l1 as [|l l1 IH]; [done|].
  change ((l :: l1) ++ l2)%list with (l :: (l1 ++ l2))%list.
  cbn [fold_right]. rewrite IH. lia.
Qed.

Lemma sumReceived_app id l1 l2 :
  sumReceived id (l1 ++ l2) = sumReceived id l1 + sumReceived id l2.
Proof.
  unfold sumReceived. induction l1 as [|l l1 IH]; [done|].
  change ((l :: l1) ++ l2)%list with (l :: (l1 ++ l2))%list.
  cbn [fold_right]. rewrite IH. lia.
Qed.

Lemma sums_nonneg id lines :
  nonNegativeFor id lines → 0 <= sumSent id lines ∧ 0 <= sumReceived id lines.
Proof.
  unfold sumSent, sumReceived.
  induction 1 as [|l lines [H1 H2] _ [IH1 IH2]]; cbn [fold_right]; lia.
Qed.

(** Without a negative sample and without overflow, the counters after a
    sequence of bandwidth lines are the counters before plus the samples. *)
Lemma handleStreamBWEvents_exact (id : string) (lines : list string) :
  ∀ (m : TorMonitor) (s : StreamInfo),
  streams m !! id = Some s →
  wfStream s →
  nonNegativeFor id lines →
  BytesSent s + sumSent id lines <= MaxInt64 →
  BytesReceived s + sumReceived id lines <= MaxInt64 →
  ∃ s', streams (handleStreamBWEvents lines m) !! id = Some s' ∧
        BytesSent s' = BytesSent s + sumSent id lines ∧
        BytesReceived s' = BytesReceived s + sumReceived id lines.
Proof.
  induction lines as [|l lines IH]; intros m s Hs Hw Hnn Hb1 Hb2.
  { exists s. cbn. split; [done|]. lia. }
  apply Forall_cons in Hnn as [[Ha Hb] Hnn].
  destruct (sums_nonneg id lines Hnn) as [Hp1 Hp2].
  destruct (handleStreamBWEvent_record id l m s Hs Hw) as (s1 & Hs1 & E1 & E2).
  pose proof Hw as [Hw1 Hw2]. unfold in_range, MinInt64 in Hw1, Hw2.
  change (sumSent id (l :: lines)) with ((sampleFor id l).1 + sumSent id lines) in *.
  change (sumReceived id (l :: lines)) with ((sampleFor id l).2 + sumReceived id lines) in *.
  rewrite add_exact in E1 by (unfold in_range, MinInt64; lia).
  rewrite add_exact in E2 by (unfold in_range, MinInt64; lia).
  destruct (IH (handleStreamBWEvent l m) s1 Hs1) as (s' & Hs' & E1' & E2');
    [split; unfold in_range, MinInt64; lia | done | lia | lia |].
  exists s'. cbn [handleStreamBWEvents fold_left]. split; [exact Hs'|]. lia.
Qed.

(** C4, as the code has it.  [ParseInt] reads signed numbers and the
    counters are [int64]: along a sequence of bandwidth lines (of ASCII
    bytes, as the control port sends them) in which no sample for the
    stream is negative and whose sums stay within [int64], the record
    stays in the registry and its [BytesSent] and [BytesReceived] never
    decrease: their values after any prefix of the sequence lie between
    the values before it and the values after the whole of it, which are
    the values before plus the samples. *)
Theorem bandwidth_monotone (id : string) (before after : list string)
    (m : TorMonitor) (s : StreamInfo) :
  allAscii (before ++ after) →
  streams m !! id = Some s →
  wfStream s →
  nonNegativeFor id (before ++ after) →
  BytesSent s + sumSent id (before ++ after) <= MaxInt64 →
  BytesReceived s + sumReceived id (before ++ after) <= MaxInt64 →
  ∃ s1 s2,
    streams (handleStreamBWEvents before m) !! id = Some s1 ∧
    streams (handleStreamBWEvents (before ++ after) m) !! id = Some s2 ∧
    BytesSent s <= BytesSent s1 <= BytesSent s2 ∧
    BytesReceived s <= BytesReceived s1 <= BytesReceived s2 ∧
    BytesSent s2 = BytesSent s + sumSent id (before ++ after) ∧
    BytesReceived s2 = BytesReceived s + sumReceived id (before ++ after).
Proof.
  intros _ Hs Hw Hnn Hb1 Hb2.
  pose proof Hnn as Hnn'. apply Forall_app in Hnn' as [Hn1 Hn2].
  destruct (sums_nonneg id _ Hn1) as [Hp1 Hp2].
  destruct (sums_nonneg id _ Hn2) as [Hq1 Hq2].
  rewrite sumSent_app in *. rewrite sumReceived_app in *.
  destruct (handleStreamBWEvents_exact id before m s Hs Hw Hn1) as (s1 & Hs1 & E1 & E2);
    [lia | lia |].
  destruct (handleStreamBWEvents_exact id (before ++ after) m s Hs Hw Hnn)
    as (s2 & Hs2 & F1 & F2); [rewrite sumSent_app; lia | rewrite sumReceived_app; lia |].
  rewrite sumSent_app in F1. rewrite sumReceived_app in F2.
  exists s1, s2. repeat split; try done; lia.
Qed.

Lemma bandwidth_monotone_witness :
  ∃ s1 s2,
    streams (handleStreamBWEvents [lineBW7] monitorOpen7) !! "7" = Some s1 ∧
    streams (handleStreamBWEvents
               [lineBW7; "650 STREAM_BW 7 5 6"; "650 STREAM_BW 8 1 1"] monitorOpen7)
      !! "7" = Some s2 ∧
    BytesSent s1 <= BytesSent s2 ∧ BytesReceived s1 <= BytesReceived s2 ∧
    BytesSent s2 = 105 ∧ BytesReceived s2 = 256.
Proof.
  destruct (bandwidth_monotone "7" [lineBW7]
              ["650 STREAM_BW 7 5 6"; "650 STREAM_BW 8 1 1"] monitorOpen7
              (setTarget (newStream 1 "7") "www.example.com:443"))
    as (s1 & s2 & H1 & H2 & H3 & H4 & H5 & H6).
  - repeat constructor.
  - vm_compute. reflexivity.
  - vm_compute. repeat split; discriminate.
  - repeat constructor; vm_compute; discriminate.
  - vm_compute. discriminate.
  - vm_compute. discriminate.
  - exists s1, s2. repeat split; try done; try lia.
Defined.

(** The claim C4 as it is worded does not hold: a bandwidth line may carry
    a negative number, which [ParseInt] accepts, and the handler then
    takes bytes away from the open stream. *)
Lemma negative_sample_counterexample :
  let line := "650 STREAM_BW 7 -5 -1" in
  route line = ToStreamBWEvent ∧
  ∃ s s',
    streams monitorOpen7 !! "7" = Some s ∧
    streams (eventLoopTurn 2 line monitorOpen7).1 !! "7" = Some s' ∧
    BytesSent s = 0 ∧ BytesSent s' = -5 ∧
    BytesReceived s = 0 ∧ BytesReceived s' = -1 ∧
    ¬ (BytesSent s <= BytesSent s') ∧ ¬ (BytesReceived s <= BytesReceived s').
Proof.
  cbn zeta. split; [vm_compute; reflexivity|].
  eexists _, _.
  split; [vm_compute; reflexivity|]. split; [vm_compute; reflexivity|].
  cbn. repeat split; try done; lia.
Qed.

(** ** A terminal notification for an id that is not in the registry *)

(** C10. A status line (of ASCII bytes, as the control port sends them)
    with status CLOSED or FAILED whose id is not in the registry makes the
    handler create a record for the id and count it (the lifetime and
    window "streams_total", [totalStreams] and [activeStreams] go up by
    one), and in the same call finalize that record (one summary on the
    console and one in the log, with no bytes) and delete it: after the
    call the registry and the count of active streams are what they were,
    and the lifetime count of streams is one higher. *)
Theorem terminal_for_absent_id (now : Z) (line : string) (m : TorMonitor) :
  let parts := Fields line in
  let id := nth 2 parts "" in
  let status := nth 3 parts "" in
  let target := default "" (targetCandidate parts) in
  let reason := scanReason parts in
  let displayReason := if String.eqb reason "DONE" then "END" else reason in
  let opened := openStream now id m in
  let s := setTarget (newStream now id) target in
  let m' := (handleStreamEvent now line m).1 in
  let out := (handleStreamEvent now line m).2 in
  asciiOnly line = true →
  (4 ≤ length parts)%nat →
  isTerminal status = true →
  streams m !! id = None →
  in_range (activeStreams m) →
  (* the record is created and counted, then finalized and removed,
     whatever the clock shows by then *)
  (∀ later,
     m' = (closeStream later id s parts
             (setStreams opened (<[id := s]> (streams opened)))).1) ∧
  activeStreams opened = incr (activeStreams m) ∧
  streams opened !! id = Some (newStream now id) ∧
  (* the state after the event *)
  streams m' = streams m ∧
  streams m' !! id = None ∧
  activeStreams m' = activeStreams m ∧
  totalStreams m' = incr (totalStreams m) ∧
  mapGet (stats m') "streams_total" = incr (mapGet (stats m) "streams_total") ∧
  mapGet (report m') "streams_total" = incr (mapGet (report m) "streams_total") ∧
  (in_range (totalStreams m) → totalStreams m < MaxInt64 →
   totalStreams m' = totalStreams m + 1) ∧
  (* what was printed *)
  (∃ elapsed stamp0 stamp1 stamp2,
     out =
       [Console stamp0 (statusColor status) (MsgStatus id status target);
        Logged (MsgStatus id status target);
        Console stamp1 ColorYellow (MsgFinished id 0 0 elapsed target displayReason);
        Console stamp2 ColorCyan
          (MsgTotalNow (mapGet (stats m) "total_sent") (mapGet (stats m) "total_received")
             (incr (totalStreams m)) (activeStreams m));
        Logged (MsgFinished id 0 0 elapsed target displayReason);
        Logged
          (MsgTotalNow (mapGet (stats m) "total_sent") (mapGet (stats m) "total_received")
             (incr (totalStreams m)) (activeStreams m))]) ∧
  countOutputs loggedFinished out = 1%nat ∧
  countOutputs printedFinished out = 1%nat.
Proof.
  cbn zeta. intros _ Hlen Hterm Hid Hact.
  rewrite (handleStreamEvent_unfold now line m Hlen). cbn zeta.
  rewrite Hid, Hterm. cbn [default newStream Target Closed negb andb fst snd].
  assert (Hd : decr (incr (activeStreams m)) = activeStreams m)
    by (rewrite decr_incr; by apply wrap64_id).
  assert (Hts : mapGet (mapIncr (stats m) "streams_total") "total_sent" =
                mapGet (stats m) "total_sent")
    by (unfold mapGet, mapIncr; by rewrite lookup_insert_ne).
  assert (Htr : mapGet (mapIncr (stats m) "streams_total") "total_received" =
                mapGet (stats m) "total_received")
    by (unfold mapGet, mapIncr; by rewrite lookup_insert_ne).
  assert (Hst : ∀ c, mapGet (mapIncr c "streams_total") "streams_total" =
                     incr (mapGet c "streams_total"))
    by (intros c; unfold mapGet at 1, mapIncr; by rewrite lookup_insert_eq).
  split.
  { intros later. unfold closeStream, setStreams.
    cbn [fst streams stats report activeStreams totalStreams].
    by rewrite !delete_insert_eq. }
  split; [done|].
  split; [cbn; apply lookup_insert_eq|].
  unfold closeStream, finalizeStream. cbn -[Round Since mapGet mapIncr].
  rewrite !insert_insert_eq, delete_insert_eq, delete_id by done.
  rewrite Hd, Hts, Htr, !Hst.
  split_and!; try done.
  - intros Hr Hlt. by apply incr_succ.
  - eauto 10.
Qed.

Lemma terminal_for_absent_id_witness :
  asciiOnly lineClosed7 = true ∧
  streams (handleStreamEvent 5 lineClosed7 NewTorMonitor).1 = ∅ ∧
  activeStreams (handleStreamEvent 5 lineClosed7 NewTorMonitor).1 = 0 ∧
  totalStreams (handleStreamEvent 5 lineClosed7 NewTorMonitor).1 = 0 + 1 ∧
  countOutputs loggedFinished (handleStreamEvent 5 lineClosed7 NewTorMonitor).2 = 1%nat.
Proof.
  assert (Ha : asciiOnly lineClosed7 = true) by (vm_compute; reflexivity).
  destruct (terminal_for_absent_id 5 lineClosed7 NewTorMonitor Ha)
    as (_ & _ & _ & H1 & _ & H2 & _ & _ & _ & H3 & _ & H4 & _).
  - vm_compute. lia.
  - vm_compute. reflexivity.
  - vm_compute. reflexivity.
  - vm_compute. split; discriminate.
  - split; [exact Ha|]. split; [exact H1|]. split; [exact H2|]. split; [|exact H4].
    apply H3; vm_compute; [split; discriminate | reflexivity].
Defined.

(** ** Two terminal notifications in a row *)

(** C1 fails on the code.  Stream "7" is opened, carries one bandwidth
    sample and is closed; the CLOSED notification then arrives a second
    time.  The first CLOSED writes one summary and removes the record.  The
    second finds no record, so the handler opens a new one, counts a second
    stream in [totalStreams] and in the lifetime and window
    "streams_total", and writes a second summary before it removes the
    record again: two summaries for the one stream.  The guard on [Closed]
    in [handleStreamEvent] never sees a closed record, since the record that
    carries the flag is deleted in the call that sets it. *)
Theorem duplicate_closed_finalizes_twice :
  let es := [Received 1 lineNew7; Received 2 lineBW7; Received 3 lineClosed7] in
  let once := run es NewTorMonitor in
  let twice := run (es ++ [Received 4 lineClosed7]) NewTorMonitor in
  countOutputs loggedFinished once.2 = 1%nat ∧
  countOutputs loggedFinished twice.2 = 2%nat ∧
  streams once.1 = ∅ ∧ streams twice.1 = ∅ ∧
  activeStreams once.1 = 0 ∧ activeStreams twice.1 = 0 ∧
  totalStreams once.1 = 1 ∧ totalStreams twice.1 = 2 ∧
  mapGet (stats once.1) "streams_total" = 1 ∧
  mapGet (stats twice.1) "streams_total" = 2 ∧
  mapGet (report once.1) "streams_total" = 1 ∧
  mapGet (report twice.1) "streams_total" = 2 ∧
  (step (Received 4 lineClosed7) once.1).2 =
    [Console (Some 4) ColorGray (MsgStatus "7" "CLOSED" "");
     Logged (MsgStatus "7" "CLOSED" "");
     Console (Some 4) ColorYellow (MsgFinished "7" 0 0 0 "" "END");
     Console (Some 4) ColorCyan (MsgTotalNow 100 250 2 0);
     Logged (MsgFinished "7" 0 0 0 "" "END");
     Logged (MsgTotalNow 100 250 2 0)].
Proof.
  cbn zeta. repeat split; vm_compute; reflexivity.
Qed.

(** ** The setup sequence *)

Section SetupReplies.

Import Setup.

(** The reply to AUTHENTICATE is checked: without "250 OK" in it, [Start]
    returns an error and starts nothing. *)
Lemma Start_checks_authenticate (address path data auth : string)
    (rest : list (result string)) :
  Contains auth "250 OK" = false →
  let w := mkWorld (Ok address) (Ok path) (Ok data) (Ok auth :: rest) in
  err (Start w) = Some (AuthenticationFailed (TrimSpace auth)) ∧
  running (Start w) = false.
Proof. intros H. cbn. by rewrite H. Qed.

(** C2 fails on the code.  Once the reply to AUTHENTICATE holds
    "250 OK", [Start] returns [nil] and starts the two goroutines
    whatever the reply to SETEVENTS is: a reply without "250 OK", a read
    error, or no reply at all.  The line is read and thrown away. *)
Theorem Start_ignores_subscribe_reply (address path data auth : string)
    (reply : result string) (rest : list (result string)) :
  Contains auth "250 OK" = true →
  let w := mkWorld (Ok address) (Ok path) (Ok data) (Ok auth :: reply :: rest) in
  let w0 := mkWorld (Ok address) (Ok path) (Ok data) [Ok auth] in
  err (Start w) = None ∧ running (Start w) = true ∧ unread (Start w) = rest ∧
  err (Start w0) = None ∧ running (Start w0) = true.
Proof. intros H. cbn. by rewrite H. Qed.

Lemma Start_ignores_subscribe_reply_witness :
  let w := mkWorld (Ok "127.0.0.1:9051") (Ok "/var/lib/tor/control_auth_cookie")
             (Ok "cookie") [Ok ("250 OK" ++ CRLF); Ok ("552 Unrecognized event" ++ CRLF)] in
  Contains ("552 Unrecognized event" ++ CRLF) "250 OK" = false ∧
  err (Start w) = None ∧ running (Start w) = true.
Proof.
  cbn zeta. split; [vm_compute; reflexivity|].
  destruct (Start_ignores_subscribe_reply "127.0.0.1:9051"
              "/var/lib/tor/control_auth_cookie" "cookie" ("250 OK" ++ CRLF)
              (Ok ("552 Unrecognized event" ++ CRLF)) [])
    as (H1 & H2 & _); [vm_compute; reflexivity|]. by split.
Defined.

End SetupReplies.

(** * Further properties of the code *)

(** ** Tokens and white space *)

Lemma fieldsFrom_trimLeft (s : string) : Fields (trimLeft s) = Fields s.
Proof.
  unfold Fields. induction s as [|c s IH]; [done|].
  cbn [trimLeft fieldsFrom]. destruct (isSpace c) eqn:E; [|by cbn; rewrite E].
  by rewrite IH.
Qed.

Lemma fieldsFrom_nil_end (tok : string) :
  fieldsFrom tok "" = if String.eqb tok "" then [] else [tok].
Proof. done. Qed.

Lemma snoc_not_empty (tok : string) (c : ascii) : String.eqb (tok ++ String c "") "" = false.
Proof. by destruct tok. Qed.

Lemma fieldsFrom_trimRight (s : string) :
  ∀ tok, fieldsFrom tok (trimRight s) = fieldsFrom tok s.
Proof.
  induction s as [|c s IH]; intros tok; [done|].
  cbn [trimRight]. destruct (trimRight s) as [|d t] eqn:Et.
  - destruct (isSpace c) eqn:E.
    + cbn [fieldsFrom]. rewrite E, <- (IH ""). cbn [fieldsFrom].
      by destruct (String.eqb tok "").
    + cbn [fieldsFrom]. by rewrite E, <- (IH (tok ++ String c "")%string).
  - remember (String d t) as u eqn:Eu. clear Eu.
    cbn [fieldsFrom]. destruct (isSpace c); by rewrite ?IH.
Qed.

(** White space around a line does not change its tokens. *)
Lemma Fields_TrimSpace (s : string) : Fields (TrimSpace s) = Fields s.
Proof.
  unfold TrimSpace, Fields at 1. rewrite fieldsFrom_trimRight.
  apply fieldsFrom_trimLeft.
Qed.

Lemma noSpace_snoc (tok : string) (c : ascii) :
  noSpace tok → isSpace c = false → noSpace (tok ++ String c "").
Proof.
  unfold noSpace. intros H Hc. induction tok as [|d tok IH].
  - cbn. by repeat constructor.
  - change (String d tok ++ String c "")%string with (String d (tok ++ String c "")).
    cbn [list_ascii_of_string] in *. apply Forall_cons in H as [Hd H].
    constructor; [done | by apply IH].
Qed.

Lemma fieldsFrom_tokens (s : string) :
  ∀ tok, noSpace tok → Forall isToken (fieldsFrom tok s).
Proof.
  induction s as [|c s IH]; intros tok Htok; cbn [fieldsFrom].
  - destruct (String.eqb_spec tok ""); [constructor|].
    by repeat constructor.
  - destruct (isSpace c) eqn:E.
    + assert (Forall isToken (fieldsFrom "" s)) by (apply IH; constructor).
      destruct (String.eqb_spec tok ""); [done|].
      by repeat constructor.
    + apply IH. by apply noSpace_snoc.
Qed.

(** Every token of [strings.Fields] is non-empty and free of white space. *)
Lemma Fields_tokens (s : string) : Forall isToken (Fields s).
Proof. apply fieldsFrom_tokens. constructor. Qed.

Lemma nth_token (parts : list string) (i : nat) :
  Forall isToken parts → (i < length parts)%nat → isToken (nth i parts "").
Proof.
  intros H Hi. rewrite Forall_forall in H. apply H.
  apply list_elem_of_In. by apply nth_In.
Qed.

(** X2. A line read of bytes below 0x80 with fewer than four tokens, white
    space around it or not, leaves the monitor as it is and prints nothing,
    wherever the loop sends it. *)
Theorem short_line_dropped (now : Z) (raw : string) (m : TorMonitor) :
  asciiOnly raw = true →
  (length (Fields raw) < 4)%nat →
  eventLoopTurn now raw m = (m, []).
Proof.
  intros _ H. unfold eventLoopTurn, dispatch.
  destruct (route _); [| |done].
  - unfold handleStreamEvent. rewrite Fields_TrimSpace.
    apply Nat.ltb_lt in H. by rewrite H.
  - unfold handleStreamBWEvent. rewrite Fields_TrimSpace.
    assert (H5 : (length (Fields raw) <? 5)%nat = true) by (apply Nat.ltb_lt; lia).
    by rewrite H5.
Qed.

Lemma short_line_dropped_witness :
  asciiOnly " 650 STREAM 7 " = true ∧
  eventLoopTurn 3 " 650 STREAM 7 " monitorOpen7 = (monitorOpen7, []).
Proof.
  split; [vm_compute; reflexivity|].
  apply (short_line_dropped 3 " 650 STREAM 7 " monitorOpen7);
    [vm_compute; reflexivity | vm_compute; lia].
Defined.

(** A bandwidth line with exactly four tokens is dropped as well. *)
Lemma short_bw_line_dropped (line : string) (m : TorMonitor) :
  (length (Fields line) < 5)%nat → handleStreamBWEvent line m = m.
Proof.
  intros H. unfold handleStreamBWEvent. apply Nat.ltb_lt in H. by rewrite H.
Qed.

(** ** What holds of every monitor a run reaches *)

Lemma step_invariant (P : TorMonitor → Prop) :
  (∀ now line m, P m → P (handleStreamEvent now line m).1) →
  (∀ line m, P m → P (handleStreamBWEvent line m)) →
  (∀ m, P m → P (periodicStats m).1) →
  ∀ e m, P m → P (step e m).1.
Proof.
  intros Hs Hb Ht e m H. destruct e as [now raw|now]; cbn [step]; [|by apply Ht].
  unfold eventLoopTurn, dispatch. destruct (route _); cbn [fst]; auto.
Qed.

Lemma run_invariant (P : TorMonitor → Prop) :
  (∀ e m, P m → P (step e m).1) →
  ∀ es m, P m → P (run es m).1.
Proof.
  intros Hstep es. induction es as [|e es IH]; intros m H; [done|].
  cbn [run]. pose proof (Hstep e m H) as H1.
  destruct (step e m) as [m1 o1]. specialize (IH m1 H1).
  destruct (run es m1) as [m2 o2]. done.
Qed.

Lemma handleStreamEvent_registryOpen now line m :
  registryOpen m → registryOpen (handleStreamEvent now line m).1.
Proof.
  intros H. destruct (Nat.ltb_spec (length (Fields line)) 4) as [Hlt|Hge].
  { unfold handleStreamEvent. apply Nat.ltb_lt in Hlt. by rewrite Hlt. }
  rewrite (handleStreamEvent_unfold now line m Hge). cbn zeta.
  set (id := nth 2 (Fields line) "").
  assert (Hid : isToken id).
  { apply nth_token; [apply Fields_tokens | lia]. }
  set (s0 := default (newStream now id) (streams m !! id)).
  assert (Hs0 : openRecord id s0).
  { subst s0. destruct (streams m !! id) eqn:E; cbn.
    - by apply (H id).
    - unfold openRecord. by split_and!. }
  set (mo := match streams m !! id with Some _ => m | None => openStream now id m end).
  assert (Hmo : registryOpen mo).
  { subst mo. destruct (streams m !! id); [done|].
    apply map_Forall_insert_2; [|done]. unfold openRecord. by split_and!. }
  set (t := default _ _).
  assert (Hs : openRecord id (setTarget s0 t)) by exact Hs0.
  destruct (isTerminal _ && negb (Closed s0)); cbn.
  - rewrite delete_insert_eq. apply map_Forall_delete. by apply map_Forall_insert_2.
  - by apply map_Forall_insert_2.
Qed.

Lemma handleStreamBWEvent_registryOpen line m :
  registryOpen m → registryOpen (handleStreamBWEvent line m).
Proof.
  intros H. unfold handleStreamBWEvent.
  destruct (length (Fields line) <? 5)%nat; [done|].
  destruct (streams m !! _) eqn:E; [|done].
  apply map_Forall_insert_2; [|done]. by apply (H _ _ E).
Qed.

Lemma run_registryOpen es : registryOpen (run es NewTorMonitor).1.
Proof.
  apply run_invariant; [|apply map_Forall_empty].
  apply step_invariant; auto using handleStreamEvent_registryOpen,
    handleStreamBWEvent_registryOpen.
Qed.

(** What a terminal status line does when the registry holds open records
    only: the record of the id, old or new, is finalized once and removed. *)
Lemma terminal_finalizes now line m :
  registryOpen m →
  (4 ≤ length (Fields line))%nat →
  isTerminal (nth 3 (Fields line) "") = true →
  let id := nth 2 (Fields line) "" in
  let s0 := default (newStream now id) (streams m !! id) in
  let r := handleStreamEvent now line m in
  streams r.1 = delete id (streams m) ∧
  ∃ d t reason ts tr al ac,
    r.2 = [Console (Some now) (statusColor (nth 3 (Fields line) "")) (MsgStatus id (nth 3 (Fields line) "") t);
           Logged (MsgStatus id (nth 3 (Fields line) "") t);
           Console (Some now) ColorYellow (MsgFinished id (BytesSent s0) (BytesReceived s0) d t reason);
           Console (Some now) ColorCyan (MsgTotalNow ts tr al ac);
           Logged (MsgFinished id (BytesSent s0) (BytesReceived s0) d t reason);
           Logged (MsgTotalNow ts tr al ac)].
Proof.
  intros H Hlen Hterm. cbn zeta.
  rewrite (handleStreamEvent_unfold now line m Hlen). cbn zeta.
  set (id := nth 2 (Fields line) "").
  assert (Hs0 : ID (default (newStream now id) (streams m !! id)) = id ∧
                Closed (default (newStream now id) (streams m !! id)) = false).
  { destruct (streams m !! id) eqn:E; cbn; [|done].
    destruct (H id _ E) as (? & _ & ? & _). done. }
  destruct Hs0 as [Hi Hc]. rewrite Hterm, Hc. cbn [negb andb fst snd].
  unfold closeStream, finalizeStream. cbn -[Round Since mapGet].
  rewrite Hi. split; [|eauto 12].
  rewrite !delete_insert_eq. destruct (streams m !! id); [done|].
  cbn. by rewrite delete_insert_eq.
Qed.

Lemma countOutputs_app f (o1 o2 : list Output) :
  countOutputs f (o1 ++ o2) = (countOutputs f o1 + countOutputs f o2)%nat.
Proof. unfold countOutputs. by rewrite filter_app, length_app. Qed.

(** X5. In every monitor a run over lines of bytes below 0x80 reaches from
    the new monitor, the registry holds the records of open streams only:
    each is filed under its own id, a token of a status line, is not
    closed and has no end time.  So the test of [Closed] in
    [handleStreamEvent] always passes there: a terminal status line of
    such bytes and of at least four tokens removes its id from the
    registry and writes exactly one summary, on the console and in the
    log. *)
Theorem registry_holds_open_streams (es : list Step) :
  let m := (run es NewTorMonitor).1 in
  Forall asciiStep es →
  registryOpen m ∧
  ∀ now line,
    asciiOnly line = true →
    (4 ≤ length (Fields line))%nat →
    isTerminal (nth 3 (Fields line) "") = true →
    let r := handleStreamEvent now line m in
    streams r.1 = delete (nth 2 (Fields line) "") (streams m) ∧
    countOutputs loggedFinished r.2 = 1%nat ∧
    countOutputs printedFinished r.2 = 1%nat.
Proof.
  cbn zeta. intros _. pose proof (run_registryOpen es) as H. split; [exact H|].
  intros now line _ Hlen Hterm.
  destruct (terminal_finalizes now line _ H Hlen Hterm) as (H1 & d & t & reason & ts & tr & al & ac & H2).
  split; [exact H1|]. rewrite H2. split; reflexivity.
Qed.

Lemma registry_holds_open_streams_witness :
  let m := (run [Received 1 lineNew7; Received 2 lineBW7] NewTorMonitor).1 in
  Forall asciiStep [Received 1 lineNew7; Received 2 lineBW7] ∧
  streams (handleStreamEvent 3 lineClosed7 m).1 = ∅ ∧
  countOutputs loggedFinished (handleStreamEvent 3 lineClosed7 m).2 = 1%nat.
Proof.
  cbn zeta.
  assert (Ha : Forall asciiStep [Received 1 lineNew7; Received 2 lineBW7])
    by (repeat constructor).
  split; [exact Ha|].
  destruct (registry_holds_open_streams [Received 1 lineNew7; Received 2 lineBW7] Ha)
    as [_ H].
  destruct (H 3 lineClosed7) as (H1 & H2 & _).
  - vm_compute. reflexivity.
  - vm_compute. lia.
  - vm_compute. reflexivity.
  - split; [|exact H2]. rewrite H1. vm_compute. reflexivity.
Defined.

(** ** The two lifetime counts of streams *)

Lemma mapGet_mapIncr_eq c k : mapGet (mapIncr c k) k = incr (mapGet c k).
Proof. unfold mapGet at 1, mapIncr. by rewrite lookup_insert_eq. Qed.

Lemma mapGet_mapIncr_ne c k k' : k ≠ k' → mapGet (mapIncr c k) k' = mapGet c k'.
Proof. intros H. unfold mapGet, mapIncr. by rewrite lookup_insert_ne. Qed.

Lemma mapGet_mapAdd_eq c k v : mapGet (mapAdd c k v) k = add (mapGet c k) v.
Proof. unfold mapGet at 1, mapAdd. by rewrite lookup_insert_eq. Qed.

Lemma mapGet_mapAdd_ne c k k' v : k ≠ k' → mapGet (mapAdd c k v) k' = mapGet c k'.
Proof. intros H. unfold mapGet, mapAdd. by rewrite lookup_insert_ne. Qed.

(** What a status line does to the counters. *)
Lemma handleStreamEvent_counters now line m :
  let r := handleStreamEvent now line m in
  (stats r.1 = stats m ∧ report r.1 = report m ∧ totalStreams r.1 = totalStreams m) ∨
  (stats r.1 = mapIncr (stats m) "streams_total" ∧
   report r.1 = mapIncr (report m) "streams_total" ∧
   totalStreams r.1 = incr (totalStreams m) ∧
   (4 ≤ length (Fields line))%nat ∧
   streams m !! nth 2 (Fields line) "" = None).
Proof.
  cbn zeta. destruct (Nat.ltb_spec (length (Fields line)) 4) as [Hlt|Hge].
  { left. unfold handleStreamEvent. apply Nat.ltb_lt in Hlt. by rewrite Hlt. }
  rewrite (handleStreamEvent_unfold now line m Hge). cbn zeta.
  destruct (streams m !! nth 2 (Fields line) "") eqn:E; [left|right];
    destruct (isTerminal _ && negb _); cbn; done.
Qed.

Lemma handleStreamEvent_agree now line m :
  lifetimeCountsAgree m → lifetimeCountsAgree (handleStreamEvent now line m).1.
Proof.
  unfold lifetimeCountsAgree. intros H.
  destruct (handleStreamEvent_counters now line m) as [(-> & _ & ->)|(-> & _ & -> & _)];
    [done|]. by rewrite mapGet_mapIncr_eq, H.
Qed.

Lemma handleStreamBWEvent_agree line m :
  lifetimeCountsAgree m → lifetimeCountsAgree (handleStreamBWEvent line m).
Proof.
  unfold lifetimeCountsAgree. intros H. unfold handleStreamBWEvent.
  destruct (length (Fields line) <? 5)%nat; [done|].
  destruct (streams m !! _); [|done]. cbn [stats totalStreams].
  by rewrite !mapGet_mapAdd_ne.
Qed.

(** X10. The monitor counts the streams it has seen twice, in [totalStreams]
    and under "streams_total" in [stats]: in every monitor a run reaches
    from the new monitor the two counts are equal. *)
Theorem lifetime_stream_counts_agree (es : list Step) :
  let m := (run es NewTorMonitor).1 in
  totalStreams m = mapGet (stats m) "streams_total".
Proof.
  apply (run_invariant lifetimeCountsAgree); [|done].
  apply step_invariant; auto using handleStreamEvent_agree, handleStreamBWEvent_agree.
Qed.

(** ** Arithmetic up to 2^64 *)

Lemma eq64_iff (x y : Z) : eq64 x y ↔ ∃ k, x = y + k * 2 ^ 64.
Proof.
  unfold eq64, wrap64, modulus. split.
  - intros H. exists ((x + 2 ^ 63) / 2 ^ 64 - (y + 2 ^ 63) / 2 ^ 64).
    pose proof (Z.div_mod (x + 2 ^ 63) (2 ^ 64) ltac:(lia)).
    pose proof (Z.div_mod (y + 2 ^ 63) (2 ^ 64) ltac:(lia)). lia.
  - intros [k ->]. f_equal.
    replace (y + k * 2 ^ 64 + 2 ^ 63) with (y + 2 ^ 63 + k * 2 ^ 64) by lia.
    apply Z_mod_plus_full.
Qed.

Lemma eq64_wrap (x : Z) : eq64 (wrap64 x) x.
Proof. unfold eq64. apply wrap64_id, wrap64_in_range. Qed.

Lemma eq64_in_range (x y : Z) : in_range x → in_range y → eq64 x y → x = y.
Proof. unfold eq64. intros Hx Hy. by rewrite !wrap64_id. Qed.

(** ** Sums over the registry *)

Section SumOver.

Variable f : StreamInfo → Z.

Lemma sumOver_empty : sumOver f ∅ = 0.
Proof. apply map_fold_empty. Qed.

Lemma sumOver_insert_fresh st id s :
  st !! id = None → sumOver f (<[id := s]> st) = f s + sumOver f st.
Proof.
  intros H. unfold sumOver. rewrite map_fold_insert_L; [done| |done].
  intros. lia.
Qed.

Lemma sumOver_delete st id s :
  st !! id = Some s → sumOver f (delete id st) = sumOver f st - f s.
Proof.
  intros H. unfold sumOver.
  rewrite (map_fold_delete_L _ _ id s st); [lia| |done].
  intros. lia.
Qed.

Lemma sumOver_insert st id s s' :
  st !! id = Some s → sumOver f (<[id := s']> st) = sumOver f st - f s + f s'.
Proof.
  intros H. rewrite <- insert_delete_eq.
  rewrite sumOver_insert_fresh by apply lookup_delete_eq.
  rewrite (sumOver_delete st id s) by done. lia.
Qed.

End SumOver.

(** ** No byte is lost between the streams and the lifetime totals *)

Lemma finishedSent_app o1 o2 :
  finishedSent (o1 ++ o2) = finishedSent o1 + finishedSent o2.
Proof.
  unfold finishedSent. induction o1 as [|o o1 IH]; [done|].
  change ((o :: o1) ++ o2)%list with (o :: (o1 ++ o2))%list. cbn [fold_right].
  rewrite IH. destruct o as [| []]; lia.
Qed.

Lemma finishedReceived_app o1 o2 :
  finishedReceived (o1 ++ o2) = finishedReceived o1 + finishedReceived o2.
Proof.
  unfold finishedReceived. induction o1 as [|o o1 IH]; [done|].
  change ((o :: o1) ++ o2)%list with (o :: (o1 ++ o2))%list. cbn [fold_right].
  rewrite IH. destruct o as [| []]; lia.
Qed.

(** A status line moves no byte: what it takes out of the registry it
    writes in the summary, and the lifetime and window totals stay. *)
Lemma handleStreamEvent_bytes now line m :
  let r := handleStreamEvent now line m in
  openSent r.1 + finishedSent r.2 = openSent m ∧
  openReceived r.1 + finishedReceived r.2 = openReceived m ∧
  (∀ k, k ≠ "streams_total" →
        mapGet (stats r.1) k = mapGet (stats m) k ∧
        mapGet (report r.1) k = mapGet (report m) k).
Proof.
  cbn zeta. destruct (Nat.ltb_spec (length (Fields line)) 4) as [Hlt|Hge].
  { unfold handleStreamEvent. apply Nat.ltb_lt in Hlt. rewrite Hlt. cbn.
    split; [lia|]. split; [lia|done]. }
  rewrite (handleStreamEvent_unfold now line m Hge). cbn zeta.
  set (id := nth 2 (Fields line) "").
  unfold openSent, openReceived.
  destruct (streams m !! id) as [s0|] eqn:E; cbn [default];
    destruct (isTerminal _ && negb _); cbn -[sumOver mapGet mapIncr Round Since].
  - rewrite !delete_insert_eq, !(sumOver_delete _ _ _ _ E).
    split; [lia|]. split; [lia|done].
  - rewrite !(sumOver_insert _ _ _ _ _ E). cbn. split; [lia|]. split; [lia|done].
  - rewrite !delete_insert_eq, !delete_id by done.
    split; [lia|]. split; [lia|]. intros k Hk. by rewrite !mapGet_mapIncr_ne.
  - rewrite !insert_insert_eq, !sumOver_insert_fresh by done. cbn.
    split; [lia|]. split; [lia|]. intros k Hk. by rewrite !mapGet_mapIncr_ne.
Qed.

(** A bandwidth line adds the same bytes, as [int64], to the record it
    names and to the lifetime totals. *)
Lemma handleStreamBWEvent_bytes line m :
  let m' := handleStreamBWEvent line m in
  eq64 (mapGet (stats m') "total_sent" + openSent m)
       (mapGet (stats m) "total_sent" + openSent m') ∧
  eq64 (mapGet (stats m') "total_received" + openReceived m)
       (mapGet (stats m) "total_received" + openReceived m').
Proof.
  cbn zeta. unfold handleStreamBWEvent.
  destruct (length (Fields line) <? 5)%nat; [done|].
  destruct (streams m !! _) as [s|] eqn:E; [|done].
  unfold openSent, openReceived. cbn [streams stats].
  rewrite !(sumOver_insert _ _ _ _ _ E).
  rewrite mapGet_mapAdd_eq, mapGet_mapAdd_ne, mapGet_mapAdd_eq, mapGet_mapAdd_ne by done.
  cbn [addBytes BytesSent BytesReceived]. unfold add.
  set (a := fst (ParseInt _)). set (b := fst (ParseInt _)).
  split; apply eq64_iff.
  - destruct (proj1 (eq64_iff _ _) (eq64_wrap (mapGet (stats m) "total_sent" + a))) as [k1 ->].
    destruct (proj1 (eq64_iff _ _) (eq64_wrap (BytesSent s + a))) as [k2 ->].
    exists (k1 - k2). lia.
  - destruct (proj1 (eq64_iff _ _) (eq64_wrap (mapGet (stats m) "total_received" + b))) as [k1 ->].
    destruct (proj1 (eq64_iff _ _) (eq64_wrap (BytesReceived s + b))) as [k2 ->].
    exists (k1 - k2). lia.
Qed.

Lemma step_conserved e m out :
  conserved (m, out) → conserved ((step e m).1, (out ++ (step e m).2)%list).
Proof.
  unfold conserved. cbn [fst snd]. rewrite finishedSent_app, finishedReceived_app.
  intros [H1 H2]. apply eq64_iff in H1 as [k1 H1]. apply eq64_iff in H2 as [k2 H2].
  destruct e as [now raw|now]; cbn [step].
  2:{ change (stats (periodicStats m).1) with (stats m).
      change (openSent (periodicStats m).1) with (openSent m).
      change (openReceived (periodicStats m).1) with (openReceived m).
      change (finishedSent (periodicStats m).2) with 0.
      change (finishedReceived (periodicStats m).2) with 0.
      split; apply eq64_iff; [exists k1|exists k2]; lia. }
  unfold eventLoopTurn, dispatch. destruct (route _); cbn [fst snd].
  - destruct (handleStreamEvent_bytes now (TrimSpace raw) m) as (E1 & E2 & E3).
    destruct (E3 "total_sent" ltac:(done)) as [-> _].
    destruct (E3 "total_received" ltac:(done)) as [-> _].
    split; apply eq64_iff; [exists k1|exists k2]; lia.
  - destruct (handleStreamBWEvent_bytes (TrimSpace raw) m) as [E1 E2].
    apply eq64_iff in E1 as [j1 E1]. apply eq64_iff in E2 as [j2 E2].
    change (finishedSent []) with 0. change (finishedReceived []) with 0.
    split; apply eq64_iff; [exists (k1 + j1)|exists (k2 + j2)]; lia.
  - change (finishedSent []) with 0. change (finishedReceived []) with 0.
    split; apply eq64_iff; [exists k1|exists k2]; lia.
Qed.

Lemma run_conserved es : ∀ m out,
  conserved (m, out) → conserved ((run es m).1, (out ++ (run es m).2)%list).
Proof.
  induction es as [|e es IH]; intros m out H.
  { cbn. by rewrite app_nil_r. }
  cbn [run]. pose proof (step_conserved e m out H) as H1.
  destruct (step e m) as [m1 o1]. cbn [fst snd] in H1.
  specialize (IH m1 _ H1). destruct (run es m1) as [m2 o2]. cbn [fst snd] in *.
  by rewrite app_assoc.
Qed.

Lemma mapGet_in_range c k : wfCounters c → in_range (mapGet c k).
Proof.
  intros H. unfold mapGet. destruct (c !! k) eqn:E; cbn.
  - by apply (H k).
  - unfold in_range, MinInt64, MaxInt64. lia.
Qed.

(** X11. No byte is lost or counted twice: after every run from the new
    monitor, the lifetime total of bytes sent is, as an [int64], the sum
    of the bytes sent of the streams still open and of the bytes sent the
    logged summaries report; the same for the bytes received. *)
Theorem bytes_conserved (es : list Step) :
  let r := run es NewTorMonitor in
  mapGet (stats r.1) "total_sent" = wrap64 (openSent r.1 + finishedSent r.2) ∧
  mapGet (stats r.1) "total_received" =
    wrap64 (openReceived r.1 + finishedReceived r.2).
Proof.
  cbn zeta.
  assert (H0 : conserved (NewTorMonitor, [])) by (split; reflexivity).
  destruct (run_conserved es NewTorMonitor [] H0) as [H1 H2]. cbn [fst snd app] in *.
  destruct (run_wf es NewTorMonitor wfMonitor_new) as (_ & Hst & _).
  unfold eq64 in *. rewrite wrap64_id in H1, H2 by (by apply mapGet_in_range).
  done.
Qed.

(** ** The window counters *)

Lemma wrap64_sub_add (a b d : Z) : wrap64 (add a d - add b d) = wrap64 (a - b).
Proof.
  unfold add. apply eq64_iff.
  destruct (proj1 (eq64_iff _ _) (eq64_wrap (a + d))) as [k1 ->].
  destruct (proj1 (eq64_iff _ _) (eq64_wrap (b + d))) as [k2 ->].
  exists (k1 - k2). lia.
Qed.

Lemma aheadOfWindow_mapIncr k k0 m m' :
  stats m' = mapIncr (stats m) k0 → report m' = mapIncr (report m) k0 →
  aheadOfWindow k m' = aheadOfWindow k m.
Proof.
  unfold aheadOfWindow. intros -> ->. destruct (decide (k0 = k)) as [->|Hne].
  - rewrite !mapGet_mapIncr_eq. apply wrap64_sub_add.
  - by rewrite !mapGet_mapIncr_ne.
Qed.

Lemma aheadOfWindow_mapAdd k k0 v m m' :
  stats m' = mapAdd (stats m) k0 v → report m' = mapAdd (report m) k0 v →
  aheadOfWindow k m' = aheadOfWindow k m.
Proof.
  unfold aheadOfWindow. intros -> ->. destruct (decide (k0 = k)) as [->|Hne].
  - rewrite !mapGet_mapAdd_eq. apply wrap64_sub_add.
  - by rewrite !mapGet_mapAdd_ne.
Qed.

(** Outside the ticks of the reporter, a lifetime counter and its window
    counter move together. *)
Lemma step_aheadOfWindow k e m :
  isTick e = false → aheadOfWindow k (step e m).1 = aheadOfWindow k m.
Proof.
  destruct e as [now raw|now]; [intros _|done]. cbn [step].
  unfold eventLoopTurn, dispatch. destruct (route _); cbn [fst]; [| |done].
  - destruct (handleStreamEvent_counters now (TrimSpace raw) m)
      as [(E1 & E2 & _)|(E1 & E2 & _)].
    + unfold aheadOfWindow. by rewrite E1, E2.
    + by apply (aheadOfWindow_mapIncr k "streams_total").
  - unfold handleStreamBWEvent.
    destruct (length (Fields (TrimSpace raw)) <? 5)%nat; [done|].
    destruct (streams m !! _); [|done].
    set (m1 := {| streams := streams m;
                  stats := mapAdd (stats m) "total_sent" (ParseInt (nth 3 (Fields (TrimSpace raw)) "")).1;
                  report := mapAdd (report m) "total_sent" (ParseInt (nth 3 (Fields (TrimSpace raw)) "")).1;
                  activeStreams := activeStreams m; totalStreams := totalStreams m |}).
    rewrite (aheadOfWindow_mapAdd k "total_received"
               (ParseInt (nth 4 (Fields (TrimSpace raw)) "")).1 m1) by done.
    by apply (aheadOfWindow_mapAdd k "total_sent"
                (ParseInt (nth 3 (Fields (TrimSpace raw)) "")).1).
Qed.

Lemma run_aheadOfWindow k es : ∀ m,
  Forall (λ e, isTick e = false) es →
  aheadOfWindow k (run es m).1 = aheadOfWindow k m.
Proof.
  induction es as [|e es IH]; intros m H; [done|].
  apply Forall_cons in H as [He H]. cbn [run].
  pose proof (step_aheadOfWindow k e m He) as H1.
  destruct (step e m) as [m1 o1]. specialize (IH m1 H).
  destruct (run es m1) as [m2 o2]. cbn [fst] in *. congruence.
Qed.

Lemma window_since_tick (k : string) (m0 : TorMonitor) (es : list Step) :
  wfMonitor m0 →
  k ∈ counterKeys →
  Forall (λ e, isTick e = false) es →
  let m := (run es (periodicStats m0).1).1 in
  mapGet (report m) k = wrap64 (mapGet (stats m) k - mapGet (stats m0) k).
Proof.
  intros Hwf Hk Hes. cbn zeta.
  pose proof (run_aheadOfWindow k es (periodicStats m0).1 Hes) as H.
  assert (Hwf1 : wfMonitor (periodicStats m0).1) by apply (step_wf (Tick 0) m0 Hwf).
  destruct (run_wf es _ Hwf1) as (_ & Hst & Hrp & _).
  set (m := (run es (periodicStats m0).1).1) in *.
  assert (H0 : aheadOfWindow k (periodicStats m0).1 = wrap64 (mapGet (stats m0) k)).
  { unfold aheadOfWindow. cbn [periodicStats fst stats report].
    assert (E : mapGet (<["streams_total":=0]> (<["total_received":=0]> (<["total_sent":=0]> (report m0)))) k = 0).
    { unfold mapGet, counterKeys in *.
      apply elem_of_union in Hk as [Hk|Hk]; [apply elem_of_union in Hk as [Hk|Hk]|];
        apply elem_of_singleton in Hk as ->; by simplify_map_eq. }
    rewrite E. f_equal. lia. }
  rewrite H0 in H. unfold aheadOfWindow in H.
  apply eq64_in_range; [by apply mapGet_in_range | apply wrap64_in_range |].
  apply eq64_iff. apply eq64_iff in H as [j H].
  destruct (proj1 (eq64_iff _ _)
              (eq64_wrap (mapGet (stats m) k - mapGet (stats m0) k))) as [j1 ->].
  exists (- j - j1). lia.
Qed.

(** X12. The report of a tick shows what the lifetime counters gained since the
    tick before it: after a tick at monitor [m0] and any lines handled
    since, the next tick prints, for the bytes sent, the bytes received
    and the streams opened, the difference as [int64] of the lifetime
    counter now and at [m0], and the current count of active streams.  With
    no line between two ticks the second report shows three zeros. *)
Theorem report_shows_growth_since_last_tick (m0 : TorMonitor) (es : list Step) :
  wfMonitor m0 →
  Forall (λ e, isTick e = false) es →
  let m := (run es (periodicStats m0).1).1 in
  let grown k := wrap64 (mapGet (stats m) k - mapGet (stats m0) k) in
  (periodicStats m).2 =
    [Console None ColorGreen
       (MsgReport (grown "total_sent") (grown "total_received") (grown "streams_total")
          (activeStreams m));
     Logged
       (MsgReport (grown "total_sent") (grown "total_received") (grown "streams_total")
          (activeStreams m))].
Proof.
  intros Hwf Hes. cbn zeta. unfold periodicStats. cbn [snd].
  rewrite !(window_since_tick _ m0 es Hwf) by (done || (unfold counterKeys; set_solver)).
  done.
Qed.

Lemma eventLoopTurn_wf now raw m : wfMonitor m → wfMonitor (eventLoopTurn now raw m).1.
Proof. exact (step_wf (Received now raw) m). Qed.

Lemma monitorOpen7_wf : wfMonitor monitorOpen7.
Proof. unfold monitorOpen7. apply eventLoopTurn_wf, wfMonitor_new. Qed.

Lemma report_shows_growth_since_last_tick_witness :
  (periodicStats (run [Received 1 lineNew7; Received 2 lineBW7] (periodicStats monitorOpen7).1).1).2 =
    [Console None ColorGreen (MsgReport 100 250 0 1); Logged (MsgReport 100 250 0 1)].
Proof.
  pose proof (report_shows_growth_since_last_tick monitorOpen7
             [Received 1 lineNew7; Received 2 lineBW7] monitorOpen7_wf
             ltac:(repeat constructor)) as H.
  cbv zeta in H. rewrite H. vm_compute. reflexivity.
Defined.

(** ** The loop as a whole *)

Lemma eventLoop_lines (lines : list (Z * string)) (m : TorMonitor)
    (rest : list (Z * Setup.result string)) :
  eventLoop (map (λ tl, (tl.1, Setup.Ok tl.2)) lines ++ rest) m =
  let r := run (map (λ tl, Received tl.1 tl.2) lines) m in
  let r' := eventLoop rest r.1 in
  (r'.1.1, (r.2 ++ r'.1.2)%list, r'.2).
Proof.
  revert m. induction lines as [|[now line] lines IH]; intros m.
  { cbn. by destruct (eventLoop rest m) as [[? ?] ?]. }
  cbn [map app eventLoop run fst snd step].
  destruct (eventLoopTurn now line m) as [m1 o1]. rewrite IH. cbn zeta.
  destruct (run _ m1) as [m2 o2]. cbn [fst snd].
  destruct (eventLoop rest m2) as [[m3 o3] stop]. cbn [fst snd].
  by rewrite app_assoc.
Qed.

(** X13. The loop handles the lines read before the first read error in order,
    each as one step, then reports the error and returns: nothing that
    could be read after the error is handled.  With no error it handles
    every line. *)
Theorem eventLoop_stops_at_first_error (lines : list (Z * string)) (m : TorMonitor)
    (now : Z) (e : string) (rest : list (Z * Setup.result string)) :
  let reads := map (λ tl, (tl.1, Setup.Ok tl.2)) lines in
  let r := run (map (λ tl, Received tl.1 tl.2) lines) m in
  eventLoop (reads ++ (now, Setup.Failed e) :: rest) m = (r.1, r.2, Some e) ∧
  eventLoop reads m = (r.1, r.2, None).
Proof.
  cbn zeta. split.
  - rewrite eventLoop_lines. cbn. by rewrite app_nil_r.
  - rewrite <- (app_nil_r (map _ lines)) at 1. rewrite eventLoop_lines. cbn.
    by rewrite app_nil_r.
Qed.

(** ** The reason of a terminal notification *)

Lemma scanReason_from (parts : list string) (r : string) :
  fold_left (λ r p, if HasPrefix p "REASON=" then TrimPrefix p "REASON=" else r) parts r =
  match last (filter (λ p, HasPrefix p "REASON=" = true) parts) with
  | Some p => TrimPrefix p "REASON="
  | None => r
  end.
Proof.
  revert r. induction parts as [|p parts IH]; intros r; [done|].
  cbn [fold_left]. rewrite IH, filter_cons.
  destruct (decide (HasPrefix p "REASON=" = true)) as [E|E].
  - rewrite E, last_cons. by destruct (last _).
  - apply not_true_is_false in E. by rewrite E.
Qed.



(** ** The order of bandwidth samples *)

Lemma add_add_comm (x a b : Z) : add (add x a) b = add (add x b) a.
Proof. unfold add. rewrite !wrap64_add_l. f_equal. lia. Qed.

Lemma mapAdd_comm (c : gmap string Z) k1 k2 v1 v2 :
  mapAdd (mapAdd c k1 v1) k2 v2 = mapAdd (mapAdd c k2 v2) k1 v1.
Proof.
  destruct (decide (k1 = k2)) as [->|Hne].
  - unfold mapAdd at 1 3. rewrite !mapGet_mapAdd_eq. unfold mapAdd.
    rewrite !insert_insert_eq. f_equal. apply add_add_comm.
  - unfold mapAdd at 1 3. rewrite !mapGet_mapAdd_ne by done. unfold mapAdd.
    by apply insert_insert_ne.
Qed.

Lemma addBytes_comm s a1 b1 a2 b2 :
  addBytes (addBytes s a1 b1) a2 b2 = addBytes (addBytes s a2 b2) a1 b1.
Proof. unfold addBytes. cbn. f_equal; apply add_add_comm. Qed.

Lemma bump_comm (c : gmap string Z) a1 b1 a2 b2 :
  mapAdd (mapAdd (mapAdd (mapAdd c "total_sent" a1) "total_received" b1)
            "total_sent" a2) "total_received" b2 =
  mapAdd (mapAdd (mapAdd (mapAdd c "total_sent" a2) "total_received" b2)
            "total_sent" a1) "total_received" b1.
Proof.
  rewrite (mapAdd_comm (mapAdd c "total_sent" a1) "total_received" "total_sent").
  rewrite (mapAdd_comm c "total_sent" "total_sent" a1 a2).
  rewrite (mapAdd_comm _ "total_received" "total_received" b1 b2).
  by rewrite (mapAdd_comm (mapAdd c "total_sent" a2) "total_sent" "total_received").
Qed.

(** X9. Two bandwidth lines can be handled in either order: the monitor that
    results is the same, whether they name one stream or two, an open
    stream or none. *)
Theorem bandwidth_lines_commute (l1 l2 : string) (m : TorMonitor) :
  handleStreamBWEvent l1 (handleStreamBWEvent l2 m) =
  handleStreamBWEvent l2 (handleStreamBWEvent l1 m).
Proof.
  destruct (Nat.ltb_spec (length (Fields l1)) 5) as [S1|L1].
  { by rewrite !(short_bw_line_dropped l1). }
  destruct (Nat.ltb_spec (length (Fields l2)) 5) as [S2|L2].
  { by rewrite !(short_bw_line_dropped l2). }
  unfold handleStreamBWEvent.
  apply Nat.ltb_ge in L1, L2. rewrite L1, L2.
  set (i1 := nth 2 (Fields l1) ""). set (i2 := nth 2 (Fields l2) "").
  set (a1 := (ParseInt (nth 3 (Fields l1) "")).1).
  set (b1 := (ParseInt (nth 4 (Fields l1) "")).1).
  set (a2 := (ParseInt (nth 3 (Fields l2) "")).1).
  set (b2 := (ParseInt (nth 4 (Fields l2) "")).1).
  destruct (decide (i1 = i2)) as [Heq|Hne].
  - rewrite <- Heq. destruct (streams m !! i1) as [s|] eqn:Es; cbn [streams].
    + rewrite !lookup_insert_eq. cbn [stats report activeStreams totalStreams].
      rewrite !insert_insert_eq, addBytes_comm.
      by rewrite (bump_comm (stats m)), (bump_comm (report m)).
    + by rewrite Es.
  - destruct (streams m !! i1) as [s1|] eqn:Es1;
      destruct (streams m !! i2) as [s2|] eqn:Es2; cbn [streams];
      rewrite ?lookup_insert_ne, ?Es1, ?Es2 by done; try done.
    cbn [stats report activeStreams totalStreams streams].
    rewrite (insert_insert_ne _ i1 i2) by done.
    by rewrite (bump_comm (stats m)), (bump_comm (report m)).
Qed.

(** ** What a line leaves alone *)

(** X3. The first status line of an id, of bytes below 0x80 and with a
    status that is not terminal, opens a stream: the registry gains a
    record for the id, started at the clock reading [now] taken for it and
    with the target of the line, the counts of active streams and of all
    streams and the two "streams_total" counters go up by one, nothing else
    changes, and the two status lines are printed, the one on the console
    under a stamp of its own. *)
Theorem first_status_line_opens_stream (now : Z) (line : string) (m : TorMonitor) :
  let parts := Fields line in
  let id := nth 2 parts "" in
  let status := nth 3 parts "" in
  let target := default "" (targetCandidate parts) in
  asciiOnly line = true →
  (4 ≤ length parts)%nat →
  streams m !! id = None →
  isTerminal status = false →
  (handleStreamEvent now line m).1 =
    {| streams :=
         <[id := {| ID := id; Target := target; BytesSent := 0; BytesReceived := 0;
                    StartTime := now; EndTime := 0; Closed := false |}]> (streams m);
       stats := mapIncr (stats m) "streams_total";
       report := mapIncr (report m) "streams_total";
       activeStreams := incr (activeStreams m);
       totalStreams := incr (totalStreams m) |} ∧
  ∃ stamp,
    (handleStreamEvent now line m).2 =
      [Console stamp (statusColor status) (MsgStatus id status target);
       Logged (MsgStatus id status target)].
Proof.
  cbn zeta. intros _ Hlen Hid Hterm.
  rewrite (handleStreamEvent_unfold now line m Hlen). cbn zeta.
  rewrite Hid, Hterm. cbn [default newStream Target Closed andb fst snd].
  unfold setStreams. cbn [openStream streams stats report activeStreams totalStreams].
  rewrite insert_insert_eq. eauto.
Qed.

Lemma first_status_line_opens_stream_witness :
  asciiOnly "650 STREAM 8 SENTCONNECT 3 example.org:80" = true ∧
  (4 ≤ length (Fields "650 STREAM 8 SENTCONNECT 3 example.org:80"))%nat ∧
  activeStreams (handleStreamEvent 2 "650 STREAM 8 SENTCONNECT 3 example.org:80" monitorOpen7).1 =
    incr (activeStreams monitorOpen7).
Proof.
  assert (Ha : asciiOnly "650 STREAM 8 SENTCONNECT 3 example.org:80" = true)
    by (vm_compute; reflexivity).
  assert (H : (4 ≤ length (Fields "650 STREAM 8 SENTCONNECT 3 example.org:80"))%nat)
    by (vm_compute; lia).
  split; [exact Ha|]. split; [exact H|].
  destruct (first_status_line_opens_stream 2 "650 STREAM 8 SENTCONNECT 3 example.org:80"
              monitorOpen7 Ha H) as [E _];
    [vm_compute; reflexivity | vm_compute; reflexivity |].
  rewrite E. reflexivity.
Defined.

(** X4. On a stream that is open, a status line of bytes below 0x80 whose
    status is not terminal changes the target of its record and nothing
    else in the monitor, whatever the clock shows, and prints the two
    status lines, the one on the console under a stamp of its own. *)
Theorem status_on_open_stream_changes_only_target (now : Z) (line : string)
    (m : TorMonitor) (s : StreamInfo) :
  let parts := Fields line in
  let id := nth 2 parts "" in
  let status := nth 3 parts "" in
  let target := default (Target s) (targetCandidate parts) in
  asciiOnly line = true →
  (4 ≤ length parts)%nat →
  streams m !! id = Some s →
  isTerminal status = false →
  (handleStreamEvent now line m).1 =
    setStreams m (<[id := setTarget s target]> (streams m)) ∧
  ∃ stamp,
    (handleStreamEvent now line m).2 =
      [Console stamp (statusColor status) (MsgStatus id status target);
       Logged (MsgStatus id status target)].
Proof.
  cbn zeta. intros _ Hlen Hs Hterm.
  rewrite (handleStreamEvent_unfold now line m Hlen). cbn zeta.
  rewrite Hs, Hterm. cbn [default andb fst snd]. eauto.
Qed.

Lemma status_on_open_stream_changes_only_target_witness :
  asciiOnly "650 STREAM 7 SUCCEEDED 12 www.example.com:443 PURPOSE=USER" = true ∧
  (handleStreamEvent 2 "650 STREAM 7 SUCCEEDED 12 www.example.com:443 PURPOSE=USER"
     monitorOpen7).1 = monitorOpen7.
Proof.
  assert (Ha : asciiOnly "650 STREAM 7 SUCCEEDED 12 www.example.com:443 PURPOSE=USER" = true)
    by (vm_compute; reflexivity).
  split; [exact Ha|].
  destruct (status_on_open_stream_changes_only_target 2
              "650 STREAM 7 SUCCEEDED 12 www.example.com:443 PURPOSE=USER" monitorOpen7
              (setTarget (newStream 1 "7") "www.example.com:443") Ha) as [E _].
  - vm_compute. lia.
  - vm_compute. reflexivity.
  - vm_compute. reflexivity.
  - rewrite E. vm_compute. reflexivity.
Defined.

Lemma handleStreamBWEvent_fields (line id : string) (m : TorMonitor) (s : StreamInfo) :
  streams m !! id = Some s →
  ∃ s', streams (handleStreamBWEvent line m) !! id = Some s' ∧
        ID s' = ID s ∧ Target s' = Target s ∧ StartTime s' = StartTime s ∧
        EndTime s' = EndTime s ∧ Closed s' = Closed s.
Proof.
  intros Hs. unfold handleStreamBWEvent.
  destruct (length (Fields line) <? 5)%nat; [eauto 10|].
  destruct (streams m !! nth 2 (Fields line) "") as [s0|] eqn:E; [|eauto 10].
  cbn [streams]. destruct (decide (nth 2 (Fields line) "" = id)) as [Heq|Hne].
  - rewrite Heq in *. rewrite lookup_insert_eq. simplify_eq. eauto 10.
  - rewrite lookup_insert_ne by done. eauto 10.
Qed.

(** X8. A bandwidth line of bytes below 0x80 opens and closes no stream:
    the same ids stay registered, the counts of streams stay, every record
    but the one the line names stays as it is, and of that one only the
    two byte counts change. *)
Theorem bandwidth_line_frame (line : string) (m : TorMonitor) :
  let m' := handleStreamBWEvent line m in
  asciiOnly line = true →
  dom (streams m') = dom (streams m) ∧
  activeStreams m' = activeStreams m ∧
  totalStreams m' = totalStreams m ∧
  mapGet (stats m') "streams_total" = mapGet (stats m) "streams_total" ∧
  mapGet (report m') "streams_total" = mapGet (report m) "streams_total" ∧
  (∀ id, id ≠ nth 2 (Fields line) "" → streams m' !! id = streams m !! id) ∧
  (∀ id s, streams m !! id = Some s →
     ∃ s', streams m' !! id = Some s' ∧
           ID s' = ID s ∧ Target s' = Target s ∧ StartTime s' = StartTime s ∧
           EndTime s' = EndTime s ∧ Closed s' = Closed s).
Proof.
  cbn zeta. intros _. split_and!.
  - unfold handleStreamBWEvent. destruct (length (Fields line) <? 5)%nat; [done|].
    destruct (streams m !! _) eqn:E; [|done]. cbn [streams].
    apply dom_insert_lookup_L. by rewrite E.
  - unfold handleStreamBWEvent. destruct (length (Fields line) <? 5)%nat; [done|].
    by destruct (streams m !! _).
  - unfold handleStreamBWEvent. destruct (length (Fields line) <? 5)%nat; [done|].
    by destruct (streams m !! _).
  - unfold handleStreamBWEvent. destruct (length (Fields line) <? 5)%nat; [done|].
    destruct (streams m !! _); [|done]. cbn [stats]. by rewrite !mapGet_mapAdd_ne.
  - unfold handleStreamBWEvent. destruct (length (Fields line) <? 5)%nat; [done|].
    destruct (streams m !! _); [|done]. cbn [report]. by rewrite !mapGet_mapAdd_ne.
  - intros id Hne. unfold handleStreamBWEvent.
    destruct (length (Fields line) <? 5)%nat; [done|].
    destruct (streams m !! nth 2 _ _); [|done]. cbn [streams].
    by rewrite lookup_insert_ne.
  - intros id s. apply handleStreamBWEvent_fields.
Qed.

Lemma bandwidth_line_frame_witness :
  asciiOnly lineBW7 = true ∧
  activeStreams (handleStreamBWEvent lineBW7 monitorOpen7) = activeStreams monitorOpen7 ∧
  dom (streams (handleStreamBWEvent lineBW7 monitorOpen7)) = dom (streams monitorOpen7).
Proof.
  assert (Ha : asciiOnly lineBW7 = true) by (vm_compute; reflexivity).
  destruct (bandwidth_line_frame lineBW7 monitorOpen7 Ha) as (H1 & H2 & _).
  split_and!; [exact Ha | exact H2 | exact H1].
Defined.

(** ** A stream from its first notification to its last *)

Lemma handleStreamBWEvents_fields (id : string) (lines : list string) :
  ∀ (m : TorMonitor) (s : StreamInfo),
  streams m !! id = Some s →
  let m' := handleStreamBWEvents lines m in
  activeStreams m' = activeStreams m ∧ totalStreams m' = totalStreams m ∧
  ∃ s', streams m' !! id = Some s' ∧
        ID s' = ID s ∧ Target s' = Target s ∧ StartTime s' = StartTime s ∧
        Closed s' = Closed s.
Proof.
  induction lines as [|l lines IH]; intros m s Hs; cbn zeta.
  { split_and!; [done|done|]. eauto 10. }
  destruct (handleStreamBWEvent_fields l id m s Hs) as (s1 & Hs1 & E1 & E2 & E3 & _ & E5).
  destruct (IH (handleStreamBWEvent l m) s1 Hs1) as (Ha & Ht & s' & Hs' & F1 & F2 & F3 & F5).
  cbn [handleStreamBWEvents fold_left]. fold (handleStreamBWEvents lines (handleStreamBWEvent l m)).
  assert (Hc : activeStreams (handleStreamBWEvent l m) = activeStreams m ∧
               totalStreams (handleStreamBWEvent l m) = totalStreams m).
  { clear. unfold handleStreamBWEvent. destruct (length (Fields l) <? 5)%nat; [done|].
    destruct (streams m !! nth 2 (Fields l) ""); by split. }
  destruct Hc as [Hc1 Hc2]. split_and!; [congruence|congruence|].
  exists s'. split_and!; congruence.
Qed.

(** X6. A stream that is opened by a status line, carries bandwidth samples
    that are not negative and whose sums fit [int64], and is then closed by
    a terminal status line, all lines being of bytes below 0x80: the
    summary reports the sums of the samples and the time from [now1], the
    clock reading at which the record was created, to [now2], the reading
    [finalizeStream] takes for the duration, rounded to the millisecond;
    the record is gone, and the count of active streams is what it was
    before the stream, while the lifetime count has gone up by one.  The
    stamps of the printed lines are readings of their own. *)
Theorem stream_lifecycle (now1 now2 : Z) (lopen lclose : string)
    (samples : list string) (m : TorMonitor) :
  let id := nth 2 (Fields lopen) "" in
  let m1 := (handleStreamEvent now1 lopen m).1 in
  let m2 := handleStreamBWEvents samples m1 in
  let r := handleStreamEvent now2 lclose m2 in
  let target :=
    default (default "" (targetCandidate (Fields lopen))) (targetCandidate (Fields lclose)) in
  let reason := reasonOf (Fields lclose) in
  asciiOnly lopen = true →
  allAscii samples →
  asciiOnly lclose = true →
  (4 ≤ length (Fields lopen))%nat →
  isTerminal (nth 3 (Fields lopen) "") = false →
  streams m !! id = None →
  in_range (activeStreams m) →
  nonNegativeFor id samples →
  sumSent id samples <= MaxInt64 →
  sumReceived id samples <= MaxInt64 →
  (4 ≤ length (Fields lclose))%nat →
  nth 2 (Fields lclose) "" = id →
  isTerminal (nth 3 (Fields lclose) "") = true →
  streams r.1 !! id = None ∧
  activeStreams r.1 = activeStreams m ∧
  totalStreams r.1 = incr (totalStreams m) ∧
  ∃ ts tr stamp1 stamp2,
    drop 2 r.2 =
      [Console stamp1 ColorYellow
         (MsgFinished id (sumSent id samples) (sumReceived id samples)
            (Round (Since now2 now1) Millisecond) target
            (if String.eqb reason "DONE" then "END" else reason));
       Console stamp2 ColorCyan
         (MsgTotalNow ts tr (incr (totalStreams m)) (activeStreams m));
       Logged
         (MsgFinished id (sumSent id samples) (sumReceived id samples)
            (Round (Since now2 now1) Millisecond) target
            (if String.eqb reason "DONE" then "END" else reason));
       Logged (MsgTotalNow ts tr (incr (totalStreams m)) (activeStreams m))].
Proof.
  cbn zeta. intros _ _ _ Hlen1 Hnt Hid Hact Hnn Hb1 Hb2 Hlen2 Hid2 Hterm.
  set (id := nth 2 (Fields lopen) "") in *.
  set (t1 := default "" (targetCandidate (Fields lopen))).
  set (s1 := setTarget (newStream now1 id) t1).
  assert (E1 : handleStreamEvent now1 lopen m =
               (setStreams (openStream now1 id m) (<[id := s1]> (streams m)),
                [Console (Some now1) (statusColor (nth 3 (Fields lopen) "")) (MsgStatus id (nth 3 (Fields lopen) "") t1);
                 Logged (MsgStatus id (nth 3 (Fields lopen) "") t1)])).
  { rewrite (handleStreamEvent_unfold now1 lopen m Hlen1). cbn zeta.
    fold id. rewrite Hid, Hnt. cbn [default newStream Target Closed andb].
    unfold setStreams. cbn [openStream streams stats report activeStreams totalStreams].
    by rewrite insert_insert_eq. }
  rewrite E1. cbn [fst].
  set (m1 := setStreams (openStream now1 id m) (<[id := s1]> (streams m))).
  assert (Hs1 : streams m1 !! id = Some s1) by apply lookup_insert_eq.
  assert (Hw1 : wfStream s1) by (split; cbn; unfold in_range, MinInt64, MaxInt64; lia).
  destruct (handleStreamBWEvents_exact id samples m1 s1 Hs1 Hw1 Hnn)
    as (s2 & Hs2 & B1 & B2); [cbn; lia | cbn; lia |].
  destruct (handleStreamBWEvents_fields id samples m1 s1 Hs1)
    as (Ha & Ht & s2' & Hs2' & F1 & F2 & F3 & F5).
  rewrite Hs2 in Hs2'. injection Hs2' as <-.
  set (m2 := handleStreamBWEvents samples m1) in *.
  rewrite (handleStreamEvent_unfold now2 lclose m2 Hlen2). cbn zeta.
  rewrite Hid2, Hs2, Hterm. change (default (newStream now2 id) (Some s2)) with s2.
  rewrite F5. cbn [s1 setTarget newStream Closed negb andb fst snd].
  unfold closeStream, finalizeStream. cbn -[Round Since mapGet].
  rewrite lookup_delete_eq, Ha, Ht, F1, F2, F3, B1, B2.
  cbn [m1 setStreams openStream activeStreams totalStreams s1 setTarget newStream
       ID Target StartTime BytesSent BytesReceived].
  rewrite decr_incr, (wrap64_id (activeStreams m)) by done.
  assert (Hr : scanReason (Fields lclose) = reasonOf (Fields lclose))
    by apply scanReason_from.
  rewrite Hr.
  rewrite !Z.add_0_l. split_and!; [done|done|done|]. eauto 6.
Qed.

Lemma stream_lifecycle_witness :
  let r := handleStreamEvent 2000003 lineClosed7
             (handleStreamBWEvents [lineBW7] (handleStreamEvent 1 lineNew7 NewTorMonitor).1) in
  allAscii [lineNew7; lineBW7; lineClosed7] ∧
  streams r.1 !! nth 2 (Fields lineNew7) "" = None ∧
  activeStreams r.1 = 0 ∧
  totalStreams r.1 = 1 ∧
  countOutputs loggedFinished r.2 = 1%nat.
Proof.
  cbn zeta.
  destruct (stream_lifecycle 1 2000003 lineNew7 lineClosed7 [lineBW7] NewTorMonitor)
    as (H1 & H2 & H3 & _).
  - vm_compute. reflexivity.
  - repeat constructor.
  - vm_compute. reflexivity.
  - vm_compute. lia.
  - vm_compute. reflexivity.
  - vm_compute. reflexivity.
  - vm_compute. split; discriminate.
  - repeat constructor; vm_compute; discriminate.
  - vm_compute. discriminate.
  - vm_compute. discriminate.
  - vm_compute. lia.
  - vm_compute. reflexivity.
  - vm_compute. reflexivity.
  - split_and!; [repeat constructor | exact H1 | exact H2
                | rewrite H3; vm_compute; reflexivity | vm_compute; reflexivity].
Defined.

(** ** The setup sequence, stage by stage *)

Section StartStages.

Import Setup.

(** X14. [Start] returns [nil] exactly when the connection, the search for the
    cookie and the reading of the cookie succeed and the first reply holds
    "250 OK"; exactly then it sends SETEVENTS and starts the two
    goroutines.  Before the cookie is read it writes nothing, and what it
    writes first is the AUTHENTICATE command with the cookie in
    hexadecimal. *)
Theorem Start_succeeds_iff (w : World) :
  (err (Start w) = None ↔
     ∃ address path data reply rest,
       connectToTor w = Ok address ∧ findCookieFile w = Ok path ∧
       ReadFile w = Ok data ∧ replies w = Ok reply :: rest ∧
       Contains reply "250 OK" = true) ∧
  (running (Start w) = true ↔ err (Start w) = None) ∧
  (("SETEVENTS STREAM STREAM_BW" ++ CRLF)%string ∈ written (Start w) ↔
     err (Start w) = None) ∧
  (∀ cmd, written (Start w) !! 0%nat = Some cmd →
     ∃ data, ReadFile w = Ok data ∧
             cmd = ("AUTHENTICATE " ++ Hex.EncodeToString data ++ CRLF)%string).
Proof.
  unfold Start.
  destruct (connectToTor w) as [address|e] eqn:E1; cbn;
    [|split_and!; [split; [done|intros (? & ? & ? & ? & ? & ? & _); done]
                  | done | split; [by intros ?%elem_of_nil|done] | done]].
  destruct (findCookieFile w) as [path|e] eqn:E2; cbn;
    [|split_and!; [split; [done|intros (? & ? & ? & ? & ? & _ & ? & _); done]
                  | done | split; [by intros ?%elem_of_nil|done] | done]].
  destruct (ReadFile w) as [data|e] eqn:E3; cbn;
    [|split_and!; [split; [done|intros (? & ? & ? & ? & ? & _ & _ & ? & _); done]
                  | done | split; [by intros ?%elem_of_nil|done] | done]].
  assert (Hne : ("SETEVENTS STREAM STREAM_BW" ++ CRLF)%string ≠
                ("AUTHENTICATE " ++ Hex.EncodeToString data ++ CRLF)%string)
    by (cbn; discriminate).
  destruct (replies w) as [|[reply|e] rest] eqn:E4; cbn.
  - split_and!.
    + split; [done|]. intros (? & ? & ? & ? & ? & _ & _ & _ & ? & _); done.
    + done.
    + split; [|done]. by intros ?%list_elem_of_singleton.
    + intros cmd [= <-]. eauto.
  - destruct (Contains reply "250 OK") eqn:E5; cbn.
    + destruct (ReadString rest) as [? ?]. cbn. split_and!.
      * split; [|done]. intros _. exists address, path, data, reply, rest. done.
      * done.
      * split; [done|]. intros _. set_solver.
      * intros cmd [= <-]. eauto.
    + split_and!.
      * split; [done|].
        intros (? & ? & ? & r & ? & _ & _ & _ & [= <- <-] & ?). congruence.
      * done.
      * split; [|done]. by intros ?%list_elem_of_singleton.
      * intros cmd [= <-]. eauto.
  - split_and!.
    + split; [done|]. intros (? & ? & ? & ? & ? & _ & _ & _ & ? & _); done.
    + done.
    + split; [|done]. by intros ?%list_elem_of_singleton.
    + intros cmd [= <-]. eauto.
Qed.

End StartStages.

(** ** The AUTHENTICATE command *)

Lemma hex_pair (v : ascii) :
  let n := nat_of_ascii v in
  let hi := Hex.hexDigit (Nat.shiftr n 4) in
  let lo := Hex.hexDigit (Nat.land n 15) in
  isHexDigit hi = true ∧ isHexDigit lo = true ∧ byteOfHex hi lo = v.
Proof.
  destruct v as [[] [] [] [] [] [] [] []]; vm_compute; done.
Qed.

Lemma EncodeToString_cons (v : ascii) (data : string) :
  Hex.EncodeToString (String v data) =
  String (Hex.hexDigit (Nat.shiftr (nat_of_ascii v) 4))
    (String (Hex.hexDigit (Nat.land (nat_of_ascii v) 15)) (Hex.EncodeToString data)).
Proof. reflexivity. Qed.

Lemma isHexDigit_not_percent (c : ascii) : isHexDigit c = true → Ascii.eqb c "%" = false.
Proof.
  intros H. destruct (Ascii.eqb_spec c "%") as [->|]; [|done].
  vm_compute in H. discriminate.
Qed.

Lemma Contains_cons_percent (c : ascii) (s : string) :
  Contains (String c s) "%" = Ascii.eqb c "%" || Contains s "%".
Proof. cbn. by rewrite andb_true_r. Qed.

Lemma EncodeToString_no_percent (data t : string) :
  Contains t "%" = false → Contains (Hex.EncodeToString data ++ t) "%" = false.
Proof.
  intros Ht. induction data as [|v data IH]; [done|].
  destruct (hex_pair v) as (H1 & H2 & _). cbv zeta in *.
  rewrite EncodeToString_cons.
  change (String ?a (String ?b ?r) ++ t)%string with (String a (String b (r ++ t))).
  rewrite !Contains_cons_percent, IH.
  by rewrite !isHexDigit_not_percent.
Qed.

(** X15. The AUTHENTICATE command carries the cookie as two lower-case
    hexadecimal digits for each byte, from which the cookie can be read
    back; so the command holds no '%', and [fmt.Fprintf], which takes
    it as its format, writes it as it is. *)
Theorem authenticate_command_is_hex (data : string) :
  let h := Hex.EncodeToString data in
  String.length h = (2 * String.length data)%nat ∧
  Forall (λ c, isHexDigit c = true) (list_ascii_of_string h) ∧
  Contains ("AUTHENTICATE " ++ h ++ Setup.CRLF) "%" = false ∧
  (∀ data', Hex.EncodeToString data' = h → data' = data).
Proof.
  cbn zeta. split_and!.
  - induction data as [|v data IH]; [done|].
    rewrite EncodeToString_cons. cbn [String.length]. rewrite IH. lia.
  - induction data as [|v data IH]; [constructor|].
    destruct (hex_pair v) as (H1 & H2 & _). cbv zeta in *.
    rewrite EncodeToString_cons. cbn [list_ascii_of_string]. by repeat constructor.
  - change ("AUTHENTICATE " ++ Hex.EncodeToString data ++ Setup.CRLF)%string
      with (String "A" (String "U" (String "T" (String "H" (String "E" (String "N"
           (String "T" (String "I" (String "C" (String "A" (String "T" (String "E"
           (String " " (Hex.EncodeToString data ++ Setup.CRLF)))))))))))))).
    rewrite !Contains_cons_percent.
    by rewrite EncodeToString_no_percent.
  - induction data as [|v data IH]; intros [|v' data'] H; try done.
    rewrite !EncodeToString_cons in H. injection H as Ha Hb Hr.
    destruct (hex_pair v) as (_ & _ & Ev). destruct (hex_pair v') as (_ & _ & Ev').
    cbv zeta in *. pose proof (f_equal2 byteOfHex Ha Hb) as E.
    assert (v' = v) as ->
      by (etransitivity; [symmetry; exact Ev'|]; etransitivity; [exact E | exact Ev]).
    f_equal. by apply IH.
Qed.

(** ** The configuration, the connection and the cookie file *)

Section ConfigProperties.

Import Setup Config.

Lemma filterPorts_spec (ports : list string) (p : string) :
  p ∈ filterPorts ports ↔ p ∈ ports ∧ p ≠ "9151".
Proof.
  unfold filterPorts. rewrite !list_elem_of_In, filter_In.
  destruct (String.eqb_spec p "9151"); cbn; intuition congruence.
Qed.

Lemma loadConfig_no_9151 (Unmarshal : string → result OmonConfig)
    (notExist : bool) (data : result string) (cfg : OmonConfig) :
  loadConfig Unmarshal notExist data = Ok cfg → "9151" ∉ Ports cfg.
Proof.
  unfold loadConfig. destruct notExist; [done|].
  destruct data as [raw|e]; [|done].
  destruct (Unmarshal raw) as [parsed|e]; [|done].
  destruct (CookiePaths parsed); [done|]. intros [= <-]. cbn [Ports].
  destruct (filterPorts (Ports parsed)) as [|q qs] eqn:EF.
  - intros H%list_elem_of_singleton. discriminate.
  - rewrite <- EF. intros H%filterPorts_spec. by destruct H.
Qed.

(** X16. A configuration [loadConfig] returns has a cookie path and a port, and
    no port "9151": its ports are the configured ones without "9151", in
    their order, or "9051" alone when none is left. *)
Theorem loadConfig_ports (Unmarshal : string → result OmonConfig)
    (notExist : bool) (data : result string) (cfg : OmonConfig) :
  loadConfig Unmarshal notExist data = Ok cfg →
  ∃ raw parsed,
    notExist = false ∧ data = Ok raw ∧ Unmarshal raw = Ok parsed ∧
    CookiePaths cfg = CookiePaths parsed ∧ CookiePaths cfg ≠ [] ∧
    Ports cfg ≠ [] ∧ ("9151" ∉ Ports cfg) ∧
    (Ports cfg = filterPorts (Ports parsed) ∨
     filterPorts (Ports parsed) = [] ∧ Ports cfg = ["9051"]) ∧
    (∀ p, p ∈ Ports parsed → p ≠ "9151" → p ∈ Ports cfg).
Proof.
  unfold loadConfig. destruct notExist; [done|].
  destruct data as [raw|e]; [|done].
  destruct (Unmarshal raw) as [parsed|e] eqn:EU; [|done].
  destruct (CookiePaths parsed) as [|c cs] eqn:EC; [done|].
  intros [= <-]. exists raw, parsed. cbn [CookiePaths Ports].
  split_and!; try done.
  - by destruct (filterPorts (Ports parsed)).
  - destruct (filterPorts (Ports parsed)) as [|q qs] eqn:EF.
    + intros H%list_elem_of_singleton. discriminate.
    + rewrite <- EF. intros H%filterPorts_spec. by destruct H.
  - destruct (filterPorts (Ports parsed)); auto.
  - intros p Hp Hne.
    assert (Hin : p ∈ filterPorts (Ports parsed)) by (by apply filterPorts_spec).
    destruct (filterPorts (Ports parsed)); [by apply elem_of_nil in Hin|done].
Qed.

Lemma loadConfig_ports_witness :
  let cfg := {| CookiePaths := ["/var/lib/tor/control_auth_cookie"];
                Ports := ["9151"; "9051"; "9151"; "9052"] |} in
  ∃ cfg', loadConfig (λ _, Ok cfg) false (Ok "{}") = Ok cfg' ∧
          Ports cfg' = ["9051"; "9052"].
Proof.
  cbn zeta. eexists. split; [reflexivity|].
  destruct (loadConfig_ports
              (λ _, Ok {| CookiePaths := ["/var/lib/tor/control_auth_cookie"];
                          Ports := ["9151"; "9051"; "9151"; "9052"] |})
              false (Ok "{}") _ eq_refl)
    as (raw & parsed & _ & _ & [= <-] & _ & _ & _ & _ & [H|[H _]] & _).
  - exact H.
  - discriminate H.
Defined.

Lemma candidates_cons (port : string) (ports : list string) :
  candidates (port :: ports) =
  ("127.0.0.1:" ++ port)%string :: ("localhost:" ++ port)%string :: candidates ports.
Proof. reflexivity. Qed.

Lemma tryPorts_Some (dial : nat → string → bool) (ports : list string) :
  ∀ n a, tryPorts dial n ports = Some a →
  ∃ i, candidates ports !! i = Some a ∧ dial (n + i)%nat a = true ∧
       ∀ j b, (j < i)%nat → candidates ports !! j = Some b → dial (n + j)%nat b = false.
Proof.
  induction ports as [|port ports IH]; intros n a H; [done|].
  rewrite candidates_cons. cbn [tryPorts] in H.
  destruct (dial n _) eqn:E1.
  { injection H as <-. exists 0%nat. rewrite Nat.add_0_r. split_and!; [done|done|lia]. }
  destruct (dial (S n) _) eqn:E2.
  { injection H as <-. exists 1%nat. replace (n + 1)%nat with (S n) by lia.
    split_and!; [done|done|]. intros [|j] b Hj; [|lia].
    intros [= <-]. by rewrite Nat.add_0_r. }
  destruct (IH _ _ H) as (i & Hi & Hd & Hbefore).
  exists (S (S i)). replace (n + S (S i))%nat with (S (S n) + i)%nat by lia.
  split_and!; [done|done|].
  intros [|[|j]] b Hj; cbn.
  - intros [= <-]. by rewrite Nat.add_0_r.
  - intros [= <-]. by replace (n + 1)%nat with (S n) by lia.
  - intros Hb. replace (n + S (S j))%nat with (S (S n) + j)%nat by lia.
    apply Hbefore; [lia|done].
Qed.

Lemma tryPorts_None (dial : nat → string → bool) (ports : list string) :
  ∀ n, tryPorts dial n ports = None →
  ∀ i a, candidates ports !! i = Some a → dial (n + i)%nat a = false.
Proof.
  induction ports as [|port ports IH]; intros n H i a; [done|].
  rewrite candidates_cons. cbn [tryPorts] in H.
  destruct (dial n _) eqn:E1; [done|]. destruct (dial (S n) _) eqn:E2; [done|].
  destruct i as [|[|i]]; cbn.
  - intros [= <-]. by rewrite Nat.add_0_r.
  - intros [= <-]. by replace (n + 1)%nat with (S n) by lia.
  - intros Hb. replace (n + S (S i))%nat with (S (S n) + i)%nat by lia. by apply IH.
Qed.

Lemma tryPorts_ext (dial dial' : nat → string → bool) (ports : list string) :
  ∀ n, (∀ i a, candidates ports !! i = Some a → dial (n + i)%nat a = dial' (n + i)%nat a) →
  tryPorts dial n ports = tryPorts dial' n ports.
Proof.
  induction ports as [|port ports IH]; intros n H; [done|].
  rewrite candidates_cons in H. cbn [tryPorts].
  pose proof (H 0%nat _ eq_refl) as H0. rewrite Nat.add_0_r in H0.
  pose proof (H 1%nat _ eq_refl) as H1. replace (n + 1)%nat with (S n) in H1 by lia.
  rewrite H0, H1. destruct (dial' n _); [done|]. destruct (dial' (S n) _); [done|].
  apply IH. intros i a Hi.
  replace (S (S n) + i)%nat with (n + S (S i))%nat by lia. by apply H.
Qed.

(** X17. [connectToTor] dials the addresses 127.0.0.1:p and localhost:p for each
    configured port p in order and returns the first that accepts: every
    address it dialled before refused, and it fails only when all refuse.
    What addresses other than these would answer plays no part. *)
Theorem connectToTor_first_to_accept (cfg : OmonConfig) (dial : nat → string → bool) :
  match connectToTor (Ok cfg) dial with
  | Ok address =>
      ∃ i, candidates (Ports cfg) !! i = Some address ∧ dial i address = true ∧
           ∀ j b, (j < i)%nat → candidates (Ports cfg) !! j = Some b → dial j b = false
  | Failed _ =>
      ∀ i a, candidates (Ports cfg) !! i = Some a → dial i a = false
  end ∧
  (∀ dial' : nat → string → bool,
     (∀ i a, a ∈ candidates (Ports cfg) → dial i a = dial' i a) →
     connectToTor (Ok cfg) dial' = connectToTor (Ok cfg) dial).
Proof.
  unfold connectToTor. split.
  - destruct (tryPorts dial 0 (Ports cfg)) as [a|] eqn:E.
    + by apply tryPorts_Some in E.
    + intros i a. by apply (tryPorts_None dial (Ports cfg) 0 E).
  - intros dial' H. rewrite (tryPorts_ext dial' dial); [done|].
    intros i a Hi. symmetry. apply H. by apply list_elem_of_lookup_2 in Hi.
Qed.

Lemma prefixed_inj (p a b : string) : (p ++ a)%string = (p ++ b)%string → a = b.
Proof.
  induction p as [|c p IH]; [done|].
  change (String c (p ++ a) = String c (p ++ b) → a = b). intros [= H]. by apply IH.
Qed.

Lemma candidates_spec (ports : list string) (a : string) :
  a ∈ candidates ports ↔
  ∃ p, p ∈ ports ∧ (a = ("127.0.0.1:" ++ p)%string ∨ a = ("localhost:" ++ p)%string).
Proof.
  unfold candidates. rewrite list_elem_of_In, in_flat_map. split.
  - intros (p & Hp & Ha). exists p. rewrite list_elem_of_In. split; [done|].
    cbn in Ha. intuition.
  - intros (p & Hp & Ha). exists p. rewrite <- list_elem_of_In. split; [done|].
    cbn. intuition.
Qed.

(** X18. With the configuration [loadConfig] returns, [connectToTor] never
    connects to port 9151, on either address, and what port 9151 would
    answer plays no part in its result. *)
Theorem connectToTor_never_9151 (Unmarshal : string → result OmonConfig)
    (notExist : bool) (data : result string) (dial : nat → string → bool) :
  let config := loadConfig Unmarshal notExist data in
  (∀ address, connectToTor config dial = Ok address →
     address ≠ "127.0.0.1:9151" ∧ address ≠ "localhost:9151") ∧
  (∀ dial' : nat → string → bool,
     (∀ i a, a ≠ "127.0.0.1:9151" → a ≠ "localhost:9151" → dial i a = dial' i a) →
     connectToTor config dial' = connectToTor config dial).
Proof.
  cbn zeta. destruct (loadConfig Unmarshal notExist data) as [cfg|e] eqn:E; [|done].
  pose proof (loadConfig_no_9151 _ _ _ _ E) as Hno.
  assert (Hc : ∀ a, a ∈ candidates (Ports cfg) →
               a ≠ "127.0.0.1:9151" ∧ a ≠ "localhost:9151").
  { intros a (p & Hp & [->| ->])%candidates_spec; split; try discriminate; intros H.
    - apply (prefixed_inj "127.0.0.1:" p "9151") in H. by subst.
    - apply (prefixed_inj "localhost:" p "9151") in H. by subst. }
  unfold connectToTor. split.
  - intros address Ha.
    destruct (tryPorts dial 0 (Ports cfg)) as [a|] eqn:Et; [|done].
    injection Ha as ->. apply tryPorts_Some in Et as (i & Hi & _).
    apply Hc. by apply list_elem_of_lookup_2 in Hi.
  - intros dial' H. rewrite (tryPorts_ext dial' dial); [done|].
    intros i a Hi. apply list_elem_of_lookup_2 in Hi. destruct (Hc a Hi).
    symmetry. by apply H.
Qed.

Section Cookie.

Variable ExpandEnv : string → string.
Variable Stat : string → bool.
Variable IsAbs : string → bool.
Variable Abs : string → result string.

Lemma lookAt_found (path found : string) :
  lookAt ExpandEnv Stat IsAbs Abs path = Some found →
  Stat found = true ∧
  (found = ExpandEnv path ∨
   Stat (ExpandEnv path) = false ∧ IsAbs (ExpandEnv path) = false ∧
   Abs (ExpandEnv path) = Ok found).
Proof.
  unfold lookAt. destruct (Stat (ExpandEnv path)) eqn:E1.
  { intros [= <-]. auto. }
  destruct (IsAbs (ExpandEnv path)) eqn:E2; [done|]. cbn.
  destruct (Abs (ExpandEnv path)) as [absPath|] eqn:E3; [|done].
  destruct (Stat absPath) eqn:E4; [|done]. intros [= <-]. auto.
Qed.

Lemma searchPaths_Some (paths : list string) (found : string) :
  searchPaths ExpandEnv Stat IsAbs Abs paths = Some found →
  ∃ before path after,
    paths = (before ++ path :: after)%list ∧
    lookAt ExpandEnv Stat IsAbs Abs path = Some found ∧
    Forall (λ p, lookAt ExpandEnv Stat IsAbs Abs p = None) before.
Proof.
  induction paths as [|p paths IH]; [done|]. cbn [searchPaths].
  destruct (lookAt ExpandEnv Stat IsAbs Abs p) as [q|] eqn:E.
  - intros [= <-]. exists [], p, paths. by split_and!.
  - intros H. destruct (IH H) as (before & path & after & -> & Hl & Hb).
    exists (p :: before), path, after. split_and!; [done|done|by constructor].
Qed.

Lemma searchPaths_None (paths : list string) :
  searchPaths ExpandEnv Stat IsAbs Abs paths = None →
  Forall (λ p, lookAt ExpandEnv Stat IsAbs Abs p = None) paths.
Proof.
  induction paths as [|p paths IH]; [constructor|]. cbn [searchPaths].
  destruct (lookAt ExpandEnv Stat IsAbs Abs p) eqn:E; [done|].
  intros H. constructor; [done|by apply IH].
Qed.

(** X19. [findCookieFile] returns a path it has seen to exist, found for the
    first configured path that leads to one: as it is after expansion, or
    made absolute when it is relative.  It fails only when no configured
    path leads to a file. *)
Theorem findCookieFile_first_found (cfg : OmonConfig) :
  match findCookieFile ExpandEnv Stat IsAbs Abs (Ok cfg) with
  | Ok found =>
      Stat found = true ∧
      ∃ before path after,
        CookiePaths cfg = (before ++ path :: after)%list ∧
        (found = ExpandEnv path ∨
         Stat (ExpandEnv path) = false ∧ IsAbs (ExpandEnv path) = false ∧
         Abs (ExpandEnv path) = Ok found) ∧
        Forall (λ p, Stat (ExpandEnv p) = false ∧
                     lookAt ExpandEnv Stat IsAbs Abs p = None) before
  | Failed _ =>
      Forall (λ p, Stat (ExpandEnv p) = false ∧
                   lookAt ExpandEnv Stat IsAbs Abs p = None) (CookiePaths cfg)
  end.
Proof.
  assert (Hnone : ∀ l, Forall (λ p, lookAt ExpandEnv Stat IsAbs Abs p = None) l →
            Forall (λ p, Stat (ExpandEnv p) = false ∧
                         lookAt ExpandEnv Stat IsAbs Abs p = None) l).
  { intros l Hl. eapply Forall_impl; [exact Hl|]. intros p Hp. split; [|done].
    unfold lookAt in Hp. by destruct (Stat (ExpandEnv p)). }
  unfold findCookieFile.
  destruct (searchPaths ExpandEnv Stat IsAbs Abs (CookiePaths cfg)) as [found|] eqn:E.
  - destruct (searchPaths_Some _ _ E) as (before & path & after & Hp & Hl & Hb).
    destruct (lookAt_found _ _ Hl) as [Hs Hw]. split; [done|].
    exists before, path, after. split_and!; [done|done|by apply Hnone].
  - by apply Hnone, searchPaths_None.
Qed.

End Cookie.

End ConfigProperties.

(** ** Decimal tokens *)

Lemma parseUintLoop_decimal (s : string) :
  ∀ n, allDecimal s → 0 <= n → decimalFrom n s <= MaxInt64 →
  parseUintLoop s n = (decimalFrom n s, None).
Proof.
  induction s as [|c s IH]; intros n Hs Hn Hb; [done|].
  pose proof Hs as Hs'. unfold allDecimal in Hs'.
  cbn [list_ascii_of_string] in Hs'. apply Forall_cons in Hs' as [Hc Hs'].
  cbn [parseUintLoop decimalFrom] in *. rewrite (digitOf_decimal c Hc).
  pose proof Hc as Hc'. unfold isDecimal in Hc'. apply andb_prop in Hc' as [H1 H2].
  apply Nat.leb_le in H1, H2.
  set (d := Z.of_nat (nat_of_ascii c) - 48) in *.
  pose proof (decimalFrom_ge s (n * 10 + d) Hs' ltac:(lia)) as Hge.
  unfold MaxInt64 in Hb.
  assert (E1 : (10 <=? d) = false) by (apply Z.leb_gt; lia). rewrite E1.
  assert (Hcut : cutoff10 = 1844674407370955162) by (vm_compute; reflexivity).
  assert (E2 : (cutoff10 <=? n) = false) by (apply Z.leb_gt; rewrite Hcut; lia).
  rewrite E2. cbn zeta. unfold wrapU64, modulus, MaxUint64.
  rewrite (Z.mod_small (n * 10)) by lia. rewrite (Z.mod_small (n * 10 + d)) by lia.
  assert (E3 : (n * 10 + d <? n * 10) || (2 ^ 64 - 1 <? n * 10 + d) = false).
  { apply orb_false_intro; apply Z.ltb_ge; lia. }
  rewrite E3. apply IH; [done|lia|unfold MaxInt64; lia].
Qed.

(** X20. A token of decimal digits that writes a number below 2^63 is read at
    that number, leading zeros or not, with "+" before it as well, and
    with "-" before it at the opposite number: these are the amounts the
    bandwidth handler adds. *)
Theorem ParseInt_decimal (s : string) :
  s ≠ "" →
  allDecimal s →
  decimalFrom 0 s <= MaxInt64 →
  ParseInt s = (decimalFrom 0 s, None) ∧
  ParseInt (String "+" s) = (decimalFrom 0 s, None) ∧
  ParseInt (String "-" s) = (- decimalFrom 0 s, None).
Proof.
  intros Hne Hs Hb.
  pose proof (parseUintLoop_decimal s 0 Hs ltac:(lia) Hb) as Hp.
  pose proof (decimalFrom_ge s 0 Hs ltac:(lia)) as Hge.
  assert (HU : ParseUint s = (decimalFrom 0 s, None)) by (by destruct s).
  assert (Hw : wrap64 (decimalFrom 0 s) = decimalFrom 0 s)
    by (apply wrap64_id; unfold in_range, MinInt64; lia).
  assert (Hw' : wrap64 (- decimalFrom 0 s) = - decimalFrom 0 s)
    by (apply wrap64_id; unfold in_range, MinInt64, MaxInt64 in *; lia).
  assert (Hc1 : (2 ^ 63 <=? decimalFrom 0 s) = false)
    by (apply Z.leb_gt; unfold MaxInt64 in Hb; lia).
  assert (Hc2 : (2 ^ 63 <? decimalFrom 0 s) = false)
    by (apply Z.ltb_ge; unfold MaxInt64 in Hb; lia).
  split_and!.
  - destruct s as [|c0 rest]; [done|]. unfold ParseInt. cbv zeta.
    pose proof Hs as Hs'. unfold allDecimal in Hs'.
    cbn [list_ascii_of_string] in Hs'. apply Forall_cons in Hs' as [Hc _].
    assert (Ascii.eqb c0 "-" = false ∧ Ascii.eqb c0 "+" = false) as [-> ->].
    { split; apply Ascii.eqb_neq; intros ->; vm_compute in Hc; discriminate. }
    cbn [orb negb andb]. rewrite HU, Hc1. cbn [andb]. by rewrite Hw.
  - unfold ParseInt. cbv zeta. change (Ascii.eqb "+" "-") with false.
    change (Ascii.eqb "+" "+") with true.
    cbn [orb negb andb]. rewrite HU, Hc1. cbn [andb]. by rewrite Hw.
  - unfold ParseInt. cbv zeta. change (Ascii.eqb "-" "-") with true.
    change (Ascii.eqb "-" "+") with false.
    cbn [orb negb andb]. rewrite HU, Hc2. cbn [andb]. by rewrite Hw, Hw'.
Qed.

Lemma ParseInt_decimal_witness :
  ParseInt "0250" = (250, None) ∧ ParseInt "-0250" = (-250, None).
Proof.
  destruct (ParseInt_decimal "0250") as (H1 & _ & H3).
  - discriminate.
  - repeat constructor.
  - vm_compute. discriminate.
  - split; [exact H1 | exact H3].
Defined.

(** ** The setup sequence with its configuration *)

Section StartWithConfig.

Import Setup.

(** X21. When the configuration cannot be loaded, or every configured port
    refuses on both addresses, [Start] fails at its first stage with the
    error of [connectToTor]; it looks for no cookie, reads no reply, writes
    nothing and starts nothing. *)
Theorem Start_stops_without_connection
    (Unmarshal : string → result Config.OmonConfig) (notExist : bool)
    (data : result string) (dial : nat → string → bool)
    (ExpandEnv : string → string) (Stat IsAbs : string → bool)
    (Abs : string → result string) (cookie : string → result string)
    (replies : list (result string)) :
  let w := worldOf Unmarshal notExist data dial ExpandEnv Stat IsAbs Abs cookie replies in
  let stopped e :=
    Start w = {| err := Some (ConnectFailed e); written := []; running := false;
                 unread := replies |} in
  (∀ e, Config.loadConfig Unmarshal notExist data = Failed e →
        stopped ("config error: " ++ e)%string) ∧
  (∀ cfg, Config.loadConfig Unmarshal notExist data = Ok cfg →
          (∀ i a, Config.candidates (Config.Ports cfg) !! i = Some a → dial i a = false) →
          stopped ("could not connect to Tor on any configured port: "
                   ++ Config.showPorts (Config.Ports cfg))%string) ∧
  (notExist = true → stopped "config error: config file 'omon.json' not found").
Proof.
  cbn zeta. unfold worldOf, Start. cbn [Setup.connectToTor Setup.replies].
  split_and!.
  - intros e ->. done.
  - intros cfg -> Hall. unfold Config.connectToTor.
    destruct (Config.tryPorts dial 0 (Config.Ports cfg)) as [a|] eqn:E; [|done].
    apply tryPorts_Some in E as (i & Hi & Hd & _). cbn in Hd.
    rewrite (Hall i a Hi) in Hd. discriminate.
  - intros ->. done.
Qed.

End StartWithConfig.
